(** * A shallow embedding of [client.py]

    [LLMClient] is a small HTTP client for a LocalAI server: a prompt
    formatter ([_format_phi_messages]), a streaming completion call
    ([chat_stream]) and a model listing call ([list_models]).

    Python values are embedded as the inductive [pyval]; a [dict] is a
    [gmap] from string keys; a Python [str] is represented by the byte string
    of its UTF-8 encoding, and [bytes] by the byte string itself.  Code that
    can raise returns a [result]; the generator [chat_stream] is embedded in
    the monad [Gen], which threads the outside world and collects the
    values yielded so far. *)

From Stdlib Require Import ZArith NArith String Ascii List PrimFloat.
From stdpp Require Import gmap strings list fin_maps.

Local Open Scope Z_scope.
Set Warnings "-register-all,-inexact-float".

(** ** Python values *)

Inductive pyval : Type :=
| PNone
| PBool (b : bool)
| PInt (z : Z)
| PFloat (f : float)
| PStr (s : string)
| PList (l : list pyval)
| PDict (d : gmap string pyval).

Abbreviation dict := (gmap string pyval).

(** Exceptions, by class.  [Exception] carries the message it was raised
    with, [KeyError] the key that was looked up. *)
Inductive exn : Type :=
| Exception (msg : string)
| KeyError (key : pyval)
| IndexError
| TypeError
| AttributeError
| UnicodeDecodeError
| UnicodeEncodeError
| JSONDecodeError
| RequestException.

Inductive result (A : Type) : Type :=
| Ok (a : A)
| Raise (e : exn).
Arguments Ok {A} a.
Arguments Raise {A} e.

#[global] Instance result_ret : MRet result := fun A a => Ok a.
#[global] Instance result_bind : MBind result := fun A B f m =>
  match m with
  | Ok a => f a
  | Raise e => Raise e
  end.

(** [bool(v)]. *)
Definition truthy (v : pyval) : bool :=
  match v with
  | PNone => false
  | PBool b => b
  | PInt z => negb (z =? 0)
  | PFloat f => negb (PrimFloat.eqb f 0%float)
  | PStr s => negb (String.eqb s "")
  | PList l => negb (Nat.eqb (length l) 0)
  | PDict d => negb (Nat.eqb (size d) 0)
  end.

(** [v == s] for a string literal [s]. *)
Definition py_eq_str (v : pyval) (s : string) : bool :=
  match v with
  | PStr t => String.eqb t s
  | _ => false
  end.

(** [d[k]] on a dict. *)
Definition dict_getitem (d : dict) (k : string) : result pyval :=
  match d !! k with
  | Some v => Ok v
  | None => Raise (KeyError (PStr k))
  end.

(** [l[-1]] on a list. *)
Definition list_getitem_last {A : Type} (l : list A) : result A :=
  match last l with
  | Some x => Ok x
  | None => Raise IndexError
  end.

(** The first code point of a [str], as [s[0]] returns it. *)
Definition utf8_width (lead : ascii) : nat :=
  let n := N_of_ascii lead in
  if (n <? 0xC0)%N then 1%nat
  else if (n <? 0xE0)%N then 2%nat
  else if (n <? 0xF0)%N then 3%nat
  else 4%nat.

Fixpoint string_take (n : nat) (s : string) : string :=
  match n, s with
  | S n', String c r => String c (string_take n' r)
  | _, _ => EmptyString
  end.

Fixpoint string_drop (n : nat) (s : string) : string :=
  match n, s with
  | S n', String _ r => string_drop n' r
  | _, _ => s
  end.

(** [v[0]]. *)
Definition py_getitem_0 (v : pyval) : result pyval :=
  match v with
  | PList (x :: _) => Ok x
  | PList [] => Raise IndexError
  | PStr (String c r) => Ok (PStr (string_take (utf8_width c) (String c r)))
  | PStr EmptyString => Raise IndexError
  | PDict _ => Raise (KeyError (PInt 0))
  | PNone | PBool _ | PInt _ | PFloat _ => Raise TypeError
  end.

(** [v[k]] for a string key [k]. *)
Definition py_getitem (v : pyval) (k : string) : result pyval :=
  match v with
  | PDict d => dict_getitem d k
  | _ => Raise TypeError
  end.

(** [v.get(k)]: only a dict has the method. *)
Definition py_get (v : pyval) (k : string) : result pyval :=
  match v with
  | PDict d => Ok (default PNone (d !! k))
  | _ => Raise AttributeError
  end.

(** ** [bytes.decode("utf-8")]

    Strict decoding: the bytes must be well-formed UTF-8 (no over-long
    forms, no surrogates, nothing above U+10FFFF).  As a [str] is kept in its
    UTF-8 encoding, a successful decode returns the same bytes. *)

Definition byte_in (lo hi : N) (c : ascii) : bool :=
  ((lo <=? N_of_ascii c) && (N_of_ascii c <=? hi))%N.

Definition utf8_cont (c : ascii) : bool := byte_in 0x80 0xBF c.

Definition utf8_second3 (b0 b1 : ascii) : bool :=
  if byte_in 0xE0 0xE0 b0 then byte_in 0xA0 0xBF b1
  else if byte_in 0xED 0xED b0 then byte_in 0x80 0x9F b1
  else utf8_cont b1.

Definition utf8_second4 (b0 b1 : ascii) : bool :=
  if byte_in 0xF0 0xF0 b0 then byte_in 0x90 0xBF b1
  else if byte_in 0xF4 0xF4 b0 then byte_in 0x80 0x8F b1
  else utf8_cont b1.

Fixpoint utf8_valid (s : string) : bool :=
  match s with
  | EmptyString => true
  | String b0 r =>
    if byte_in 0x00 0x7F b0 then utf8_valid r
    else if byte_in 0xC2 0xDF b0 then
      match r with
      | String b1 r' => utf8_cont b1 && utf8_valid r'
      | _ => false
      end
    else if byte_in 0xE0 0xEF b0 then
      match r with
      | String b1 (String b2 r') =>
        utf8_second3 b0 b1 && utf8_cont b2 && utf8_valid r'
      | _ => false
      end
    else if byte_in 0xF0 0xF4 b0 then
      match r with
      | String b1 (String b2 (String b3 r')) =>
        utf8_second4 b0 b1 && utf8_cont b2 && utf8_cont b3 && utf8_valid r'
      | _ => false
      end
    else false
  end.

Definition bytes_decode (line : string) : result string :=
  if utf8_valid line then Ok line else Raise UnicodeDecodeError.

(** [s.startswith(p)]. *)
Definition startswith (s p : string) : bool := String.prefix p s.

(** ** The world outside the program

    What the program calls but does not define: the builtin [repr] (used by
    an f-string on a value that is not a [str]), [json.loads], the clock
    behind [time.time] and the server behind [requests]. *)

Inductive http_method : Type := GET | POST.

Record Request : Type := {
  req_method : http_method;
  req_url : string;
  req_headers : gmap string string;
  req_json : option pyval;
  req_stream : bool }.

Record Response : Type := {
  status_code : Z;
  text : string;
  iter_lines : list string }.

Record Runtime : Type := {
  py_repr : pyval -> string;
  json_loads : string -> result pyval;
  clock : nat -> float;
  serve : Request -> result Response }.

(** [format(v, "")], which an f-string field [{v}] expands to: a [str] is
    inserted as it is, any other value through its [repr]. *)
Definition py_format (rt : Runtime) (v : pyval) : string :=
  match v with
  | PStr s => s
  | _ => py_repr rt v
  end.

(** ** [LLMClient] *)

Record LLMClient : Type := {
  api_base : string;
  headers : gmap string string }.

Definition default_api_base : string := "http://localhost:8080/v1".

Definition __init__ (api_base : string) : LLMClient :=
  {| api_base := api_base;
     headers := {[ "Content-Type" := "application/json" ]} |}.

Section Formatter.
Context (rt : Runtime).

(** [next((msg for msg in messages if msg["role"] == "system"), None)]:
    the generator is consumed up to its first element only. *)
Fixpoint next_system (messages : list dict) : result (option dict) :=
  match messages with
  | [] => Ok None
  | msg :: rest =>
    role ← dict_getitem msg "role";
    if py_eq_str role "system" then Ok (Some msg) else next_system rest
  end.

(** [[msg for msg in messages if msg["role"] == "user"]]. *)
Fixpoint user_messages (messages : list dict) : result (list dict) :=
  match messages with
  | [] => Ok []
  | msg :: rest =>
    role ← dict_getitem msg "role";
    tail ← user_messages rest;
    Ok (if py_eq_str role "user" then msg :: tail else tail)
  end.

Definition _format_phi_messages (messages : list dict) : result string :=
  let formatted := "" in
  system_msg ← next_system messages;
  formatted ←
    match system_msg with
    | Some d =>
      if truthy (PDict d) then
        content ← dict_getitem d "content";
        Ok (formatted +:+ "<|system|>" +:+ py_format rt content +:+ "<|end|>")
      else Ok formatted
    | None => Ok formatted
    end;
  user_msgs ← user_messages messages;
  formatted ←
    (if negb (Nat.eqb (length user_msgs) 0)
     then
       last_user ← list_getitem_last user_msgs;
       content ← dict_getitem last_user "content";
       Ok (formatted +:+ "<|user|>" +:+ py_format rt content
             +:+ "<|end|><|assistant|>")
     else Ok formatted);
  Ok formatted.

End Formatter.

(** ** Effects: the world, and the generator monad

    The world records how many times the clock has been read and which
    requests have been sent.  A computation of type [Gen A] runs from a
    world and gives the values it yielded, in order, then either a value or
    the exception it raised, and the world it left. *)

Record World : Type := {
  ticks : nat;
  sent : list Request }.

Definition StreamEvent : Type := pyval * float.

Definition Gen (A : Type) : Type :=
  World -> list StreamEvent * result A * World.

#[global] Instance gen_ret : MRet Gen := fun A a w => ([], Ok a, w).
#[global] Instance gen_bind : MBind Gen := fun A B f m w =>
  match m w with
  | (ys, Ok a, w') => let '(ys', r, w'') := f a w' in (ys ++ ys', r, w'')
  | (ys, Raise e, w') => (ys, Raise e, w')
  end.

Definition gen_lift {A : Type} (r : result A) : Gen A := fun w => ([], r, w).

(** [yield ev]. *)
Definition gen_yield (ev : StreamEvent) : Gen unit := fun w => ([ev], Ok tt, w).

(** [raise e]. *)
Definition gen_raise {A : Type} (e : exn) : Gen A := gen_lift (Raise e).

(** [try: body except json.JSONDecodeError: handler]. *)
Definition try_except_JSONDecodeError (body handler : Gen unit) : Gen unit :=
  fun w =>
    match body w with
    | (ys, Raise JSONDecodeError, w') =>
      let '(ys', r, w'') := handler w' in (ys ++ ys', r, w'')
    | done => done
    end.

(** [for x in l: body x]. *)
Fixpoint for_each {A : Type} (l : list A) (body : A -> Gen unit) : Gen unit :=
  match l with
  | [] => mret tt
  | x :: rest => body x ;; for_each rest body
  end.

(** Sending a request: the server's answer, and the request logged. *)
Definition send (rt : Runtime) (req : Request) (w : World)
  : result Response * World :=
  (serve rt req, {| ticks := ticks w; sent := sent w ++ [req] |}).

(** [response.json()]. *)
Definition response_json (rt : Runtime) (response : Response) : result pyval :=
  json_loads rt (text response).

(** The payload of a decoded line: [line[6:]] when the line starts with
    ["data: "], the line itself otherwise. *)
Definition strip_data_prefix (line : string) : string :=
  if startswith line "data: " then string_drop 6 line else line.

(** The request body [data] of [chat_stream]. *)
Definition request_data (formatted_prompt model : string) : dict :=
  <[ "prompt" := PStr formatted_prompt ]>
  (<[ "model" := PStr model ]>
  (<[ "stream" := PBool true ]>
  (<[ "top_p" := PFloat 0.1%float ]>
  (<[ "temperature" := PFloat 0.3%float ]>
  (<[ "stop" := PList [PStr "<|endoftext|>"; PStr "<|end|>"] ]>
  (<[ "max_tokens" := PInt 1024 ]>
  (<[ "presence_penalty" := PFloat 0.0%float ]>
  (<[ "frequency_penalty" := PFloat 0.0%float ]> ∅)))))))).

Definition default_model : string := "phi-3.5-mini-instruct".

Section Client.
Context (rt : Runtime).

(** [time.time()]. *)
Definition time_time : Gen float := fun w =>
  ([], Ok (clock rt (ticks w)), {| ticks := S (ticks w); sent := sent w |}).

(** [requests.post(url, headers=headers, json=data, stream=True)]. *)
Definition requests_post (url : string) (hdrs : gmap string string)
    (data : pyval) (stream : bool) : Gen Response := fun w =>
  let '(r, w') :=
    send rt {| req_method := POST; req_url := url; req_headers := hdrs;
               req_json := Some data; req_stream := stream |} w in
  ([], r, w').

(** [requests.get(url)]. *)
Definition requests_get (url : string) (w : World) : result Response * World :=
  send rt {| req_method := GET; req_url := url; req_headers := ∅;
             req_json := None; req_stream := false |} w.

Definition list_models (self : LLMClient) (w : World) : result pyval * World :=
  let '(r, w') := requests_get (api_base self +:+ "/models") w in
  match r with
  | Ok response => (response_json rt response, w')
  | Raise e => (Raise e, w')
  end.

(** What the [try] block does with a decoded [chunk]. *)
Definition handle_chunk (start_time : float) (chunk : pyval) : Gen unit :=
  choices ← gen_lift (py_get chunk "choices");
  cond ←
    (if truthy choices then
       choices ← gen_lift (py_getitem chunk "choices");
       first ← gen_lift (py_getitem_0 choices);
       gen_lift (py_get first "text")
     else mret choices);
  if truthy cond then
    choices ← gen_lift (py_getitem chunk "choices");
    first ← gen_lift (py_getitem_0 choices);
    content ← gen_lift (py_getitem first "text");
    now ← time_time;
    let current_time := (now - start_time)%float in
    gen_yield (content, current_time)
  else mret tt.

(** The body of the loop over [response.iter_lines()]. *)
Definition handle_line (start_time : float) (line : string) : Gen unit :=
  if negb (String.eqb line "") then
    line ← gen_lift (bytes_decode line);
    let line := strip_data_prefix line in
    if String.eqb line "[DONE]" then mret tt
    else
      try_except_JSONDecodeError
        (chunk ← gen_lift (json_loads rt line);
         handle_chunk start_time chunk)
        (mret tt)
  else mret tt.

Definition chat_stream (self : LLMClient) (messages : list dict)
    (model : string) : Gen unit :=
  formatted_prompt ← gen_lift (_format_phi_messages rt messages);
  let data := request_data formatted_prompt model in
  start_time ← time_time;
  response ← requests_post (api_base self +:+ "/completions") (headers self)
               (PDict data) true;
  if negb (status_code response =? 200)
  then gen_raise (Exception ("Error: " +:+ text response))
  else for_each (iter_lines response) (handle_line start_time).

End Client.

(** ** Vocabulary of the specification *)

(** A well-formed message [{role, content}]. *)
Definition message (role content : string) : dict :=
  {[ "role" := PStr role; "content" := PStr content ]}.

Definition has_key (k : string) (m : dict) : Prop := is_Some (m !! k).

Definition well_formed (m : dict) : Prop :=
  has_key "role" m /\ has_key "content" m.

(** The message has role [r]. *)
Definition is_role (r : string) (m : dict) : bool :=
  match m !! "role" with
  | Some v => py_eq_str v r
  | None => false
  end.

Definition first_with_role (r : string) (msgs : list dict) : option dict :=
  List.find (is_role r) msgs.

Definition last_with_role (r : string) (msgs : list dict) : option dict :=
  List.find (is_role r) (rev msgs).

(** The two blocks of a prompt, from the content of the message each is
    built from; a block is empty when there is no such message. *)
Definition system_block (rt : Runtime) (content : option pyval) : string :=
  match content with
  | Some c => "<|system|>" +:+ py_format rt c +:+ "<|end|>"
  | None => ""
  end.

Definition user_block (rt : Runtime) (content : option pyval) : string :=
  match content with
  | Some c => "<|user|>" +:+ py_format rt c +:+ "<|end|><|assistant|>"
  | None => ""
  end.

Definition content_of (m : option dict) : option pyval :=
  match m with
  | Some d => d !! "content"
  | None => None
  end.

(** Positions, counted from [i], of the elements that satisfy [p]. *)
Fixpoint positions {A : Type} (p : A -> bool) (i : nat) (l : list A) : list nat :=
  match l with
  | [] => []
  | x :: rest =>
    if p x then i :: positions p (S i) rest else positions p (S i) rest
  end.

(** The sublist of the elements whose position, counted from [i], is in
    [keep]. *)
Fixpoint keep_positions {A : Type} (keep : list nat) (i : nat) (l : list A)
  : list A :=
  match l with
  | [] => []
  | x :: rest =>
    if existsb (Nat.eqb i) keep
    then x :: keep_positions keep (S i) rest
    else keep_positions keep (S i) rest
  end.

Definition first_position {A : Type} (p : A -> bool) (l : list A) : option nat :=
  head (positions p 0 l).

Definition last_position {A : Type} (p : A -> bool) (l : list A) : option nat :=
  last (positions p 0 l).

(** The sublist of just the last system message and the last user message. *)
Definition last_system_last_user (msgs : list dict) : list dict :=
  keep_positions
    (option_list (last_position (is_role "system") msgs)
       ++ option_list (last_position (is_role "user") msgs)) 0 msgs.

(** The sublist of just the first system message and the last user message. *)
Definition first_system_last_user (msgs : list dict) : list dict :=
  keep_positions
    (option_list (first_position (is_role "system") msgs)
       ++ option_list (last_position (is_role "user") msgs)) 0 msgs.

(** The formatter returns on [msgs]: every message has a role, and the two
    messages it reads the content of have one. *)
Definition formattable (msgs : list dict) : Prop :=
  Forall (has_key "role") msgs
  /\ (forall m, first_with_role "system" msgs = Some m -> has_key "content" m)
  /\ (forall m, last_with_role "user" msgs = Some m -> has_key "content" m).

(** [needle] occurs in [s]. *)
Definition contains (s needle : string) : Prop :=
  exists before after, s = before +:+ needle +:+ after.

(** What the formatter does once it holds the first system message and the
    last user message. *)
Definition render (rt : Runtime) (sys usr : option dict) : result string :=
  formatted ←
    match sys with
    | Some d =>
      content ← dict_getitem d "content";
      Ok ("<|system|>" +:+ py_format rt content +:+ "<|end|>")
    | None => Ok ""
    end;
  match usr with
  | Some d =>
    content ← dict_getitem d "content";
    Ok (formatted +:+ "<|user|>" +:+ py_format rt content
          +:+ "<|end|><|assistant|>")
  | None => Ok formatted
  end.

(** The request [chat_stream] posts for a formatted prompt. *)
Definition completions_request (self : LLMClient) (formatted_prompt model : string)
  : Request :=
  {| req_method := POST;
     req_url := api_base self +:+ "/completions";
     req_headers := headers self;
     req_json := Some (PDict (request_data formatted_prompt model));
     req_stream := true |}.

(** The request [list_models] sends. *)
Definition models_request (self : LLMClient) : Request :=
  {| req_method := GET;
     req_url := api_base self +:+ "/models";
     req_headers := ∅;
     req_json := None;
     req_stream := false |}.

(** The world after one reading of the clock, and after one request. *)
Definition after_tick (w : World) : World :=
  {| ticks := S (ticks w); sent := sent w |}.

Definition after_request (req : Request) (w : World) : World :=
  {| ticks := ticks w; sent := sent w ++ [req] |}.

(** The chunk is one the client drops: it has no choices, or choices that
    are empty or null, or a first choice without text or with empty text. *)
Definition dropped_chunk (d : dict) : Prop :=
  d !! "choices" = None
  \/ (exists c, d !! "choices" = Some c /\ truthy c = false)
  \/ (exists first more,
        d !! "choices" = Some (PList (PDict first :: more))
        /\ match first !! "text" with
           | Some t => truthy t = false
           | None => True
           end).

(** The computation sends no request. *)
Definition sends_nothing {A : Type} (m : Gen A) : Prop :=
  forall w, sent (m w).2 = sent w.

(** ** A test double for the outside world

    The examples run the client against a canned server, a clock that
    advances by half a second per reading, and a decoder that knows the
    payloads the examples send. *)

Definition dquote : string := String "034"%char EmptyString.

(** The text [{"choices":[{"text":"t"}]}] and the value it decodes to. *)
Definition chunk_text (t : string) : string :=
  "{" +:+ dquote +:+ "choices" +:+ dquote +:+ ":[{" +:+ dquote +:+ "text"
    +:+ dquote +:+ ":" +:+ dquote +:+ t +:+ dquote +:+ "}]}".

Definition chunk_value (t : string) : pyval :=
  PDict {[ "choices" := PList [PDict {[ "text" := PStr t ]}] ]}.

(** The text [{"error":"not found"}] and the value it decodes to. *)
Definition error_text : string :=
  "{" +:+ dquote +:+ "error" +:+ dquote +:+ ":" +:+ dquote +:+ "not found"
    +:+ dquote +:+ "}".

Definition error_value : pyval := PDict {[ "error" := PStr "not found" ]}.

Definition known_payloads : list (string * pyval) :=
  [ (chunk_text "hi", chunk_value "hi");
    (chunk_text "", chunk_value "");
    ("{" +:+ dquote +:+ "choices" +:+ dquote +:+ ":[{}]}",
     PDict {[ "choices" := PList [PDict ∅] ]});
    ("{}", PDict ∅);
    (error_text, error_value) ].

Fixpoint lookup_payload (table : list (string * pyval)) (s : string)
  : result pyval :=
  match table with
  | [] => Raise JSONDecodeError
  | (k, v) :: rest => if String.eqb k s then Ok v else lookup_payload rest s
  end.

Definition mock_repr (v : pyval) : string :=
  match v with
  | PNone => "None"
  | PBool true => "True"
  | PBool false => "False"
  | _ => "..."
  end.

Definition mock_clock (n : nat) : float :=
  Nat.iter n (fun t => (t + 0.5)%float) 1000%float.

Definition mock_runtime (answer : result Response) : Runtime :=
  {| py_repr := mock_repr;
     json_loads := lookup_payload known_payloads;
     clock := mock_clock;
     serve := fun _ => answer |}.

Definition offline : Runtime := mock_runtime (Raise RequestException).

(** A conversation whose user turn comes before its system message. *)
Definition sample_conversation : list dict :=
  [message "user" "first"; message "system" "S"; message "assistant" "A";
   message "user" "U"].

(** A conversation with two system messages. *)
Definition two_system_messages : list dict :=
  [message "system" "A"; message "user" "first"; message "system" "B";
   message "user" "U"].

(** The answer of a server that fails with a JSON error body. *)
Definition not_found (status : Z) : Response :=
  {| status_code := status; text := error_text; iter_lines := [] |}.

(** Stream lines: a chunk with text, a line that is not JSON, the sentinel,
    a chunk whose text is empty, a chunk without text, one without choices. *)
Definition hi_line : string := "data: " +:+ chunk_text "hi".
Definition garbage_line : string := "data: not json".
Definition done_line : string := "data: [DONE]".
Definition empty_text_line : string := "data: " +:+ chunk_text "".
Definition no_text_line : string :=
  "data: {" +:+ dquote +:+ "choices" +:+ dquote +:+ ":[{}]}".
Definition no_choices_line : string := "data: {}".

Definition initial_world : World := {| ticks := 0; sent := [] |}.

(** ** Streams of chunks *)

(** The lines of a stream that carries the texts [ts], one chunk a line,
    and ends with the sentinel. *)
Definition chunk_lines (ts : list string) : list string :=
  map (fun t => "data: " +:+ chunk_text t) ts ++ ["data: [DONE]"].

Definition nonempty (t : string) : bool := negb (String.eqb t "").

(** A server that streams Hello, a space and world, and a runtime that
    decodes these chunks. *)
Definition hello_payloads : list (string * pyval) :=
  [ (chunk_text "Hello", chunk_value "Hello");
    (chunk_text " ", chunk_value " ");
    (chunk_text "world", chunk_value "world") ].

Definition hello_response : Response :=
  {| status_code := 200; text := ""; iter_lines := chunk_lines ["Hello"; " "; "world"] |}.

Definition hello_runtime : Runtime :=
  {| py_repr := mock_repr;
     json_loads := lookup_payload hello_payloads;
     clock := mock_clock;
     serve := fun _ => Ok hello_response |}.

(** The exceptions a decoded chunk of an unexpected shape ends the stream
    with. *)
Definition shape_error (e : exn) : Prop :=
  e = AttributeError \/ e = TypeError \/ e = KeyError (PInt 0).

(** A decoded chunk of an unexpected shape, and the exception it ends the
    stream with: the chunk is not an object; its choices are a number or
    true, an object, or a string; or the first of its choices is not an
    object. *)
Inductive unexpected_chunk : pyval -> exn -> Prop :=
| chunk_not_object (chunk : pyval) :
    (forall d, chunk <> PDict d) -> unexpected_chunk chunk AttributeError
| choices_number (d : dict) (c : pyval) :
    d !! "choices" = Some c ->
    truthy c = true ->
    (exists b, c = PBool b) \/ (exists z, c = PInt z) \/ (exists f, c = PFloat f) ->
    unexpected_chunk (PDict d) TypeError
| choices_object (d c : dict) :
    d !! "choices" = Some (PDict c) ->
    truthy (PDict c) = true ->
    unexpected_chunk (PDict d) (KeyError (PInt 0))
| choices_string (d : dict) (s : string) :
    d !! "choices" = Some (PStr s) ->
    s <> "" ->
    unexpected_chunk (PDict d) AttributeError
| choice_not_object (d : dict) (first : pyval) (more : list pyval) :
    d !! "choices" = Some (PList (first :: more)) ->
    (forall c, first <> PDict c) ->
    unexpected_chunk (PDict d) AttributeError.

(** The run of a loop that stops with [e] once [r] has gone through. *)
Definition then_raise (e : exn) (run : list StreamEvent * result unit * World)
  : list StreamEvent * result unit * World :=
  let '(ys, r, w) := run in
  (ys, match r with Ok _ => Raise e | Raise e' => Raise e' end, w).

(** A line that is not UTF-8, a line whose payload is the number 5, and a
    runtime that decodes the latter. *)
Definition invalid_utf8_line : string := String "255"%char EmptyString.

Definition number_line : string := "data: 5".

Definition number_runtime : Runtime :=
  {| py_repr := mock_repr;
     json_loads := lookup_payload (("5", PInt 5) :: known_payloads);
     clock := mock_clock;
     serve := fun _ => Raise RequestException |}.

(** The runtime takes the chunk line of the text [t] for what it is: the
    line is UTF-8 and its payload decodes to the chunk with that text. *)
Definition decodes_chunk (rt : Runtime) (t : string) : Prop :=
  bytes_decode ("data: " +:+ chunk_text t) = Ok ("data: " +:+ chunk_text t)
  /\ json_loads rt (chunk_text t) = Ok (chunk_value t).

(** ** [demonstrate_capabilities]

    Two blocks of the demonstration are pure: the choice of the examples from
    the parsed command line, and the loop that prints the tokens of a stream
    and adds them up. *)

(** What [parser.parse_args()] returns: [args.title] is [None] or a [str],
    [args.content] is [None] or a list of [str]. *)
Record Args : Type := {
  args_title : option string;
  args_content : option (list string) }.

(** An entry of [examples]: [{"title": ..., "messages": [...]}]. *)
Record Example : Type := {
  ex_title : string;
  ex_messages : list dict }.

(** [" ".join(l)]. *)
Fixpoint join_space (l : list string) : string :=
  match l with
  | [] => ""
  | [x] => x
  | x :: rest => x +:+ " " +:+ join_space rest
  end.

Definition fallback_example : Example :=
  {| ex_title := "AI Explanation";
     ex_messages :=
       [ {[ "role" := PStr "user";
            "content" := PStr "Explain what AI is in two sentences." ]} ] |}.

(** The list [examples] the demonstration builds: [args.title and
    args.content] holds when neither is [None] nor empty. *)
Definition build_examples (args : Args) : list Example :=
  let examples := [] in
  match args_title args, args_content args with
  | Some title, Some content =>
    if negb (String.eqb title "") && negb (Nat.eqb (length content) 0) then
      examples ++
        [ {| ex_title := title;
             ex_messages :=
               [ {[ "role" := PStr "user";
                    "content" := PStr (join_space content) ]} ] |} ]
    else [fallback_example]
  | _, _ => [fallback_example]
  end.

Definition newline : string := String "010"%char EmptyString.

(** The variables [total_time] and [total_response] of the printing loop. *)
Record Totals : Type := {
  total_time : pyval;
  total_response : string }.

Definition initial_totals : Totals :=
  {| total_time := PInt 0; total_response := "" |}.

(** What [print(token, end=end_char, flush=True)] writes for an event. *)
Definition printed (rt : Runtime) (token : pyval) : string :=
  let end_char := if py_eq_str token " " then newline else "" in
  py_format rt token +:+ end_char.

(** The standard output.  [stdout_write out text] is what happens when
    [text] is written after the texts [out]: the write succeeds, or it
    raises, as [print] does with UnicodeEncodeError on a text that the
    encoding of the standard output cannot take. *)
Record Console : Type := {
  stdout_write : list string -> string -> result unit }.

(** The loop over the events of the stream: each token is printed, which
    raises when the write fails; then [total_time] is set and the token is
    added to [total_response], which raises TypeError when the token is not
    a [str].  [out] is what has been written to the standard output. *)
Fixpoint print_tokens (rt : Runtime) (con : Console)
    (events : list StreamEvent) (out : list string) (acc : Totals)
  : list string * result Totals :=
  match events with
  | [] => (out, Ok acc)
  | (token, response_time) :: rest =>
    match stdout_write con out (printed rt token) with
    | Raise e => (out, Raise e)
    | Ok _ =>
      let out := out ++ [printed rt token] in
      let total_time := PFloat response_time in
      match token with
      | PStr s =>
        print_tokens rt con rest out
          {| total_time := total_time;
             total_response := total_response acc +:+ s |}
      | _ => (out, Raise TypeError)
      end
    end
  end.

(** Writing the [texts] one after the other, after [out], succeeds. *)
Fixpoint writes_succeed (con : Console) (out texts : list string) : Prop :=
  match texts with
  | [] => True
  | t :: rest =>
    stdout_write con out t = Ok tt /\ writes_succeed con (out ++ [t]) rest
  end.

(** A standard output in UTF-8 takes every text that a [str] of this
    embedding can hold (a [str] with a lone surrogate has no UTF-8 encoding,
    so [pyval] has no such value); one in ASCII raises on a text with a byte
    above 127. *)
Definition utf8_console : Console :=
  {| stdout_write := fun _ _ => Ok tt |}.

Fixpoint is_ascii (s : string) : bool :=
  match s with
  | EmptyString => true
  | String c rest => byte_in 0x00 0x7F c && is_ascii rest
  end.

Definition ascii_console : Console :=
  {| stdout_write := fun _ t =>
       if is_ascii t then Ok tt else Raise UnicodeEncodeError |}.

(** The letter e with an acute accent, in UTF-8. *)
Definition e_acute : string := String "195"%char (String "169"%char EmptyString).

(** The text of the tokens of a list of events, in order. *)
Fixpoint concat_tokens (events : list StreamEvent) : string :=
  match events with
  | [] => ""
  | (PStr s, _) :: rest => s +:+ concat_tokens rest
  | _ :: rest => concat_tokens rest
  end.

Definition is_str (v : pyval) : Prop := exists s, v = PStr s.

(** Command lines: a title with two words of content, and content alone. *)
Definition titled_args : Args :=
  {| args_title := Some "My Example";
     args_content := Some ["two"; "words"] |}.

Definition untitled_args : Args :=
  {| args_title := None; args_content := Some ["ignored"] |}.

(** A conversation where an assistant turn and an earlier user turn, which
    has no content, come before the last user turn. *)
Definition long_conversation : list dict :=
  [message "system" "S"; {[ "role" := PStr "user" ]};
   message "assistant" "A"].

(** A system message without content, followed by a message without role. *)
Definition broken_conversation : list dict :=
  [message "assistant" "A"; {[ "role" := PStr "system" ]}; ∅].

(** A line whose payload is the object [{"choices":[null]}], and a runtime
    that decodes it. *)
Definition null_choice_text : string :=
  "{" +:+ dquote +:+ "choices" +:+ dquote +:+ ":[null]}".

Definition null_choice_line : string := "data: " +:+ null_choice_text.

Definition null_choice_runtime : Runtime :=
  {| py_repr := mock_repr;
     json_loads :=
       lookup_payload
         ((null_choice_text, PDict {[ "choices" := PList [PNone] ]})
            :: known_payloads);
     clock := mock_clock;
     serve := fun _ => Raise RequestException |}.

(** * Properties of the formatter *)

Ltac unfold_bind := unfold mbind, mret, result_bind, result_ret in *.

Lemma append_empty_r (s : string) : s +:+ "" = s.
Proof.
  induction s as [|c s IH]; [reflexivity|].
  change (String c (s +:+ "") = String c s). now rewrite IH.
Qed.

Lemma append_empty_l (s : string) : "" +:+ s = s.
Proof. reflexivity. Qed.

Lemma dict_getitem_Ok (d : dict) (k : string) :
  has_key k d -> exists v, d !! k = Some v /\ dict_getitem d k = Ok v.
Proof.
  intros [v Hv]. exists v. unfold dict_getitem. now rewrite Hv.
Qed.

Lemma dict_getitem_Raise (d : dict) (k : string) (e : exn) :
  dict_getitem d k = Raise e -> e = KeyError (PStr k) /\ ~ has_key k d.
Proof.
  unfold dict_getitem, has_key. destruct (d !! k) as [v|] eqn:E; intros H.
  - discriminate.
  - inversion H. split; [reflexivity | intros [v Hv]; discriminate].
Qed.

Lemma is_role_getitem (r : string) (d : dict) (v : pyval) :
  d !! "role" = Some v -> is_role r d = py_eq_str v r.
Proof. intros H. unfold is_role. now rewrite H. Qed.

Lemma is_role_has_key (r : string) (d : dict) :
  is_role r d = true -> has_key "role" d.
Proof.
  unfold is_role, has_key. destruct (d !! "role"); [eauto | discriminate].
Qed.

Lemma has_key_truthy (k : string) (d : dict) :
  has_key k d -> truthy (PDict d) = true.
Proof.
  intros [v Hv]. simpl.
  destruct (Nat.eqb_spec (size d) 0) as [E|]; [|reflexivity].
  apply map_size_empty_iff in E. subst d. rewrite lookup_empty in Hv.
  discriminate.
Qed.

Lemma next_system_Ok (msgs : list dict) :
  Forall (has_key "role") msgs ->
  next_system msgs = Ok (first_with_role "system" msgs).
Proof.
  induction 1 as [|m msgs Hm _ IH]; simpl; [reflexivity|].
  destruct (dict_getitem_Ok m "role" Hm) as (v & Hv & ->). unfold_bind.
  rewrite (is_role_getitem "system" m v Hv).
  destruct (py_eq_str v "system"); [reflexivity | exact IH].
Qed.

Lemma next_system_inv (msgs : list dict) (o : option dict) :
  next_system msgs = Ok o -> o = first_with_role "system" msgs.
Proof.
  revert o. induction msgs as [|m msgs IH]; intros o; simpl.
  - now inversion 1.
  - unfold dict_getitem, is_role. destruct (m !! "role") as [v|]; unfold_bind.
    + destruct (py_eq_str v "system"); [now inversion 1 | apply IH].
    + discriminate.
Qed.

Lemma next_system_Raise (msgs : list dict) (e : exn) :
  next_system msgs = Raise e -> e = KeyError (PStr "role").
Proof.
  induction msgs as [|m msgs IH]; simpl; [discriminate|].
  unfold dict_getitem. destruct (m !! "role") as [v|]; unfold_bind.
  - destruct (py_eq_str v "system"); [discriminate | exact IH].
  - now inversion 1.
Qed.

Lemma user_messages_Ok (msgs : list dict) :
  Forall (has_key "role") msgs ->
  user_messages msgs = Ok (List.filter (is_role "user") msgs).
Proof.
  induction 1 as [|m msgs Hm _ IH]; simpl; [reflexivity|].
  destruct (dict_getitem_Ok m "role" Hm) as (v & Hv & ->). unfold_bind.
  rewrite IH, (is_role_getitem "user" m v Hv). reflexivity.
Qed.

Lemma user_messages_inv (msgs l : list dict) :
  user_messages msgs = Ok l -> Forall (has_key "role") msgs.
Proof.
  revert l. induction msgs as [|m msgs IH]; intros l; simpl; [constructor|].
  unfold dict_getitem. destruct (m !! "role") as [v|] eqn:E; unfold_bind.
  - destruct (user_messages msgs) as [l'|]; [|discriminate].
    intros _. constructor; [now exists v | now apply (IH l')].
  - discriminate.
Qed.

Lemma user_messages_Raise (msgs : list dict) (e : exn) :
  user_messages msgs = Raise e -> e = KeyError (PStr "role").
Proof.
  induction msgs as [|m msgs IH]; simpl; [discriminate|].
  unfold dict_getitem. destruct (m !! "role") as [v|]; unfold_bind.
  - destruct (user_messages msgs); [discriminate | exact IH].
  - now inversion 1.
Qed.

Lemma find_snoc {A : Type} (p : A -> bool) (l : list A) (x : A) :
  List.find p (l ++ [x]) =
  match List.find p l with
  | Some y => Some y
  | None => if p x then Some x else None
  end.
Proof.
  induction l as [|y l IH]; simpl; [reflexivity|].
  destruct (p y); [reflexivity | exact IH].
Qed.

Lemma last_filter_find_rev {A : Type} (p : A -> bool) (l : list A) :
  last (List.filter p l) = List.find p (rev l).
Proof.
  induction l as [|x l IH]; simpl; [reflexivity|].
  rewrite find_snoc, <- IH. destruct (p x).
  - rewrite last_cons. now destruct (last (List.filter p l)).
  - now destruct (last (List.filter p l)).
Qed.

Lemma last_user_messages (msgs : list dict) :
  last (List.filter (is_role "user") msgs) = last_with_role "user" msgs.
Proof. apply last_filter_find_rev. Qed.

Lemma find_Some_true {A : Type} (p : A -> bool) (l : list A) (x : A) :
  List.find p l = Some x -> p x = true.
Proof. intros H. now apply List.find_some in H. Qed.

(** With a role on every message, the formatter is [render] of the first
    system message and the last user message. *)
Lemma format_render (rt : Runtime) (msgs : list dict) :
  Forall (has_key "role") msgs ->
  _format_phi_messages rt msgs =
  render rt (first_with_role "system" msgs) (last_with_role "user" msgs).
Proof.
  intros Hall. unfold _format_phi_messages, render.
  rewrite (next_system_Ok msgs Hall). unfold mbind at 1, result_bind at 1.
  rewrite (user_messages_Ok msgs Hall), <- last_user_messages.
  assert (Hsys :
    match first_with_role "system" msgs with
    | Some d =>
      if truthy (PDict d) then
        content ← dict_getitem d "content";
        Ok ("" +:+ "<|system|>" +:+ py_format rt content +:+ "<|end|>")
      else Ok ""
    | None => Ok ""
    end =
    match first_with_role "system" msgs with
    | Some d =>
      content ← dict_getitem d "content";
      Ok ("<|system|>" +:+ py_format rt content +:+ "<|end|>")
    | None => Ok ""
    end).
  { destruct (first_with_role "system" msgs) as [d|] eqn:E; [|reflexivity].
    apply find_Some_true, is_role_has_key in E.
    now rewrite (has_key_truthy _ _ E). }
  rewrite Hsys. clear Hsys.
  destruct (match first_with_role "system" msgs with
            | Some d => _ | None => _ end) as [f|e]; unfold_bind; [|reflexivity].
  unfold list_getitem_last.
  destruct (last (List.filter (is_role "user") msgs)) as [u|] eqn:E.
  - assert (length (List.filter (is_role "user") msgs) <> 0%nat) as Hlen.
    { intros Hz. apply length_zero_iff_nil in Hz. rewrite Hz in E. discriminate. }
    apply Nat.eqb_neq in Hlen. rewrite Hlen. simpl.
    now destruct (dict_getitem u "content").
  - apply last_None in E. rewrite E. reflexivity.
Qed.

Lemma append_assoc (a b c : string) : (a +:+ b) +:+ c = a +:+ b +:+ c.
Proof.
  induction a as [|x a IH]; [reflexivity|].
  change (String x ((a +:+ b) +:+ c) = String x (a +:+ b +:+ c)).
  now rewrite IH.
Qed.

Lemma find_In {A : Type} (p : A -> bool) (l : list A) (x : A) :
  List.find p l = Some x -> In x l.
Proof. intros H. now apply List.find_some in H. Qed.

Lemma render_well_formed (rt : Runtime) (sys usr : option dict) :
  (forall d, sys = Some d -> has_key "content" d) ->
  (forall d, usr = Some d -> has_key "content" d) ->
  render rt sys usr =
  Ok (system_block rt (content_of sys) +:+ user_block rt (content_of usr)).
Proof.
  intros Hs Hu. unfold render.
  destruct sys as [d|]; simpl.
  - destruct (dict_getitem_Ok d "content" (Hs d eq_refl)) as (c & Hc & ->).
    rewrite Hc. unfold_bind. destruct usr as [u|]; simpl.
    + destruct (dict_getitem_Ok u "content" (Hu u eq_refl)) as (c' & Hc' & ->).
      now rewrite Hc'.
    + now rewrite append_empty_r.
  - unfold_bind. destruct usr as [u|]; simpl; [|reflexivity].
    destruct (dict_getitem_Ok u "content" (Hu u eq_refl)) as (c' & Hc' & ->).
    now rewrite Hc'.
Qed.

Lemma message_role (r c : string) : message r c !! "role" = Some (PStr r).
Proof. reflexivity. Qed.

Lemma message_content (r c : string) :
  message r c !! "content" = Some (PStr c).
Proof. reflexivity. Qed.

Lemma well_formed_message (r c : string) : well_formed (message r c).
Proof.
  split; [exists (PStr r); apply message_role
         | exists (PStr c); apply message_content].
Qed.

(** C1: on well-formed messages the prompt is the system block of the
    first message with role "system" followed by the user block of the last
    message with role "user", a block being empty when there is no such
    message, whatever the order of the messages; for [{system,S},{user,U}],
    in either order, it is <|system|>S<|end|><|user|>U<|end|><|assistant|>. *)
Theorem format_phi_messages_blocks (rt : Runtime) (msgs : list dict) :
  Forall well_formed msgs ->
  _format_phi_messages rt msgs =
    Ok (system_block rt (content_of (first_with_role "system" msgs))
        +:+ user_block rt (content_of (last_with_role "user" msgs)))
  /\ (forall S U : string,
        _format_phi_messages rt [message "system" S; message "user" U] =
          Ok ("<|system|>" +:+ S +:+ "<|end|><|user|>" +:+ U
              +:+ "<|end|><|assistant|>")
        /\ _format_phi_messages rt [message "user" U; message "system" S] =
          Ok ("<|system|>" +:+ S +:+ "<|end|><|user|>" +:+ U
              +:+ "<|end|><|assistant|>")).
Proof.
  intros Hwf.
  assert (Hgen : forall l, Forall well_formed l ->
    _format_phi_messages rt l =
    Ok (system_block rt (content_of (first_with_role "system" l))
        +:+ user_block rt (content_of (last_with_role "user" l)))).
  { intros l Hl. rewrite format_render.
    - apply render_well_formed; intros d Hd; apply find_In in Hd.
      + rewrite List.Forall_forall in Hl. now apply Hl.
      + rewrite <- in_rev in Hd. rewrite List.Forall_forall in Hl.
        now apply Hl.
    - eapply Forall_impl; [exact Hl | now intros m [Hr _]]. }
  split; [now apply Hgen|].
  intros S U. split.
  - rewrite Hgen by (repeat constructor; apply well_formed_message).
    unfold first_with_role, last_with_role, is_role. simpl.
    rewrite !message_role. simpl. rewrite !message_content. simpl.
    now rewrite !append_assoc.
  - rewrite Hgen by (repeat constructor; apply well_formed_message).
    unfold first_with_role, last_with_role, is_role. simpl.
    rewrite !message_role. simpl. rewrite !message_content. simpl.
    now rewrite !append_assoc.
Qed.

Lemma format_phi_messages_blocks_witness :
  Forall well_formed sample_conversation
  /\ _format_phi_messages offline sample_conversation =
     Ok "<|system|>S<|end|><|user|>U<|end|><|assistant|>".
Proof.
  assert (H : Forall well_formed sample_conversation)
    by (repeat constructor; apply well_formed_message).
  split; [exact H|].
  rewrite (proj1 (format_phi_messages_blocks offline sample_conversation H)).
  reflexivity.
Defined.

(** C9: the formatter returns the empty string on the empty list of
    messages, and raises nothing. *)
Theorem format_phi_messages_empty (rt : Runtime) :
  _format_phi_messages rt [] = Ok "".
Proof. reflexivity. Qed.

Lemma render_Ok_inv (rt : Runtime) (sys usr : option dict) (s : string) :
  render rt sys usr = Ok s ->
  (forall d, sys = Some d -> has_key "content" d)
  /\ (forall d, usr = Some d -> has_key "content" d).
Proof.
  unfold render, dict_getitem, has_key. intros H. split; intros d ->.
  - destruct (d !! "content"); [eauto | discriminate].
  - destruct (match sys with Some _ => _ | None => _ end);
      unfold_bind; [|discriminate].
    destruct (d !! "content"); [eauto | discriminate].
Qed.

Lemma render_Ok_or_KeyError (rt : Runtime) (sys usr : option dict) :
  (exists s, render rt sys usr = Ok s)
  \/ render rt sys usr = Raise (KeyError (PStr "content")).
Proof.
  unfold render, dict_getitem.
  destruct sys as [d|]; [destruct (d !! "content")|]; unfold_bind;
    try (now right);
    (destruct usr as [u|]; [destruct (u !! "content")|]);
    try (now right); left; eexists; reflexivity.
Qed.

Lemma format_Ok_or_KeyError (rt : Runtime) (msgs : list dict) :
  (exists s, _format_phi_messages rt msgs = Ok s)
  \/ (exists k, _format_phi_messages rt msgs = Raise (KeyError (PStr k))).
Proof.
  destruct (user_messages msgs) as [l|e] eqn:Eu.
  - apply user_messages_inv in Eu. rewrite (format_render rt msgs Eu).
    destruct (render_Ok_or_KeyError rt (first_with_role "system" msgs)
                (last_with_role "user" msgs)) as [H|H]; [now left|].
    right. now exists "content".
  - right. apply user_messages_Raise in Eu as Hrole.
    unfold _format_phi_messages. rewrite Eu.
    destruct (next_system msgs) as [o|e'] eqn:En; unfold_bind.
    + destruct o as [d|].
      * destruct (truthy (PDict d)).
        -- unfold dict_getitem. destruct (d !! "content").
           ++ exists "role". now rewrite Hrole.
           ++ now exists "content".
        -- exists "role". now rewrite Hrole.
      * exists "role". now rewrite Hrole.
    + apply next_system_Raise in En. exists "role". now rewrite En.
Qed.

Lemma format_Ok_formattable (rt : Runtime) (msgs : list dict) :
  (exists s, _format_phi_messages rt msgs = Ok s) <-> formattable msgs.
Proof.
  split.
  - intros [s Hs].
    assert (Hall : Forall (has_key "role") msgs).
    { unfold _format_phi_messages in Hs.
      destruct (next_system msgs) as [o|]; unfold_bind; [|discriminate].
      destruct (match o with Some _ => _ | None => _ end); [|discriminate].
      destruct (user_messages msgs) as [l|] eqn:Eu; [|discriminate].
      now apply user_messages_inv in Eu. }
    rewrite (format_render rt msgs Hall) in Hs.
    apply render_Ok_inv in Hs. now split.
  - intros (Hall & Hs & Hu). rewrite (format_render rt msgs Hall).
    rewrite (render_well_formed rt _ _ Hs Hu). eauto.
Qed.

(** C10: the formatter returns a string exactly when every message has a
    "role" key and the first system message and the last user message, when
    they exist, have a "content" key; on any other list it raises KeyError,
    as on a list holding one message without a "role" key. *)
Theorem format_phi_messages_total_iff (rt : Runtime) (msgs : list dict) :
  ((exists s, _format_phi_messages rt msgs = Ok s) <-> formattable msgs)
  /\ (~ formattable msgs ->
      exists k, _format_phi_messages rt msgs = Raise (KeyError (PStr k)))
  /\ (~ formattable [∅ : dict]
      /\ _format_phi_messages rt [∅ : dict] = Raise (KeyError (PStr "role"))).
Proof.
  split; [apply format_Ok_formattable|]. split.
  - intros Hno. destruct (format_Ok_or_KeyError rt msgs) as [H|H]; [|exact H].
    apply format_Ok_formattable in H. contradiction.
  - split; [|reflexivity].
    intros (Hall & _). inversion Hall as [|m l [v Hv] _]; subst.
    rewrite lookup_empty in Hv. discriminate.
Qed.

(** ** Which messages the formatter reads *)

Section Positions.
Context {A : Type} (p : A -> bool) (keep : list nat).

Lemma last_filter_None_positions (i : nat) (l : list A) :
  last (List.filter p l) = None -> positions p i l = [].
Proof.
  revert i. induction l as [|x l IH]; intros i; simpl; [reflexivity|].
  destruct (p x).
  - rewrite last_cons. now destruct (last (List.filter p l)).
  - apply IH.
Qed.

Lemma keep_positions_Forall (P : A -> Prop) (i : nat) (l : list A) :
  Forall P l -> Forall P (keep_positions keep i l).
Proof.
  intros H. revert i. induction H as [|x l Hx _ IH]; intros i; simpl.
  - constructor.
  - destruct (existsb (Nat.eqb i) keep); [constructor; [exact Hx|] |]; apply IH.
Qed.

(** Keeping the position of the first element that satisfies [p] keeps the
    first such element first. *)
Lemma find_keep_positions (i : nat) (l : list A) :
  (forall j, head (positions p i l) = Some j -> existsb (Nat.eqb j) keep = true) ->
  List.find p (keep_positions keep i l) = List.find p l.
Proof.
  revert i. induction l as [|x l IH]; intros i H; simpl in *; [reflexivity|].
  destruct (p x) eqn:Px.
  - rewrite (H i eq_refl). simpl. now rewrite Px.
  - destruct (existsb (Nat.eqb i) keep); simpl; rewrite ?Px; now apply IH.
Qed.

(** Keeping the position of the last element that satisfies [p] keeps the
    last such element last. *)
Lemma last_filter_keep_positions (i : nat) (l : list A) :
  (forall j, last (positions p i l) = Some j -> existsb (Nat.eqb j) keep = true) ->
  last (List.filter p (keep_positions keep i l)) = last (List.filter p l).
Proof.
  revert i. induction l as [|x l IH]; intros i H; simpl in *; [reflexivity|].
  assert (Hrest : forall j, last (positions p (S i) l) = Some j ->
                            existsb (Nat.eqb j) keep = true).
  { intros j Hj. apply H. destruct (p x); [|exact Hj].
    rewrite last_cons. now rewrite Hj. }
  specialize (IH (S i) Hrest).
  destruct (p x) eqn:Px.
  - rewrite (last_cons x (List.filter p l)).
    destruct (existsb (Nat.eqb i) keep) eqn:Ki; simpl; rewrite ?Px.
    + now rewrite last_cons, IH.
    + rewrite IH. destruct (last (List.filter p l)) eqn:E; [reflexivity|].
      apply (last_filter_None_positions (S i)) in E.
      rewrite E in H. rewrite (H i eq_refl) in Ki. discriminate.
  - destruct (existsb (Nat.eqb i) keep); simpl; rewrite ?Px; exact IH.
Qed.

End Positions.

Lemma existsb_eqb_In (j : nat) (keep : list nat) :
  In j keep -> existsb (Nat.eqb j) keep = true.
Proof.
  intros H. apply existsb_exists. exists j. split; [exact H|].
  apply Nat.eqb_refl.
Qed.

(** C2, as the code has it: with a role on every message, the formatter
    reads only the first system message and the last user message; its
    result on the whole list is its result on the sublist of just these
    two. *)
Theorem format_phi_messages_consumes (rt : Runtime) (msgs : list dict) :
  Forall (has_key "role") msgs ->
  _format_phi_messages rt (first_system_last_user msgs) =
  _format_phi_messages rt msgs.
Proof.
  intros Hall. unfold first_system_last_user.
  set (keep := option_list (first_position (is_role "system") msgs)
               ++ option_list (last_position (is_role "user") msgs)).
  rewrite (format_render rt msgs Hall).
  rewrite format_render by now apply keep_positions_Forall.
  f_equal.
  - apply find_keep_positions. intros j Hj. apply existsb_eqb_In.
    subst keep. unfold first_position. rewrite Hj. now left.
  - rewrite <- !last_user_messages. apply last_filter_keep_positions.
    intros j Hj. apply existsb_eqb_In. subst keep. unfold last_position.
    rewrite Hj. apply in_or_app. right. now left.
Qed.

Lemma format_phi_messages_consumes_witness :
  Forall (has_key "role") two_system_messages
  /\ first_system_last_user two_system_messages =
       [message "system" "A"; message "user" "U"]
  /\ _format_phi_messages offline (first_system_last_user two_system_messages) =
     _format_phi_messages offline two_system_messages.
Proof.
  assert (H : Forall (has_key "role") two_system_messages)
    by (repeat constructor; apply well_formed_message).
  split; [exact H|]. split; [reflexivity|].
  exact (format_phi_messages_consumes offline two_system_messages H).
Defined.

(** C2, as stated, fails: with two system messages the formatter reads the
    first one, so its result differs from its result on the sublist of the
    last system message and the last user message. *)
Lemma format_phi_messages_last_system_counterexample :
  last_system_last_user two_system_messages =
    [message "system" "B"; message "user" "U"]
  /\ _format_phi_messages offline two_system_messages =
     Ok "<|system|>A<|end|><|user|>U<|end|><|assistant|>"
  /\ _format_phi_messages offline (last_system_last_user two_system_messages) =
     Ok "<|system|>B<|end|><|user|>U<|end|><|assistant|>"
  /\ _format_phi_messages offline two_system_messages <>
     _format_phi_messages offline (last_system_last_user two_system_messages).
Proof.
  split; [reflexivity|]. split; [reflexivity|]. split; [reflexivity|].
  intros H. vm_compute in H. discriminate H.
Qed.

(** * Properties of the streaming client *)

Lemma for_each_skip {A : Type} (body : A -> Gen unit) (x : A) (rest : list A)
    (w : World) :
  body x w = ([], Ok tt, w) ->
  for_each (x :: rest) body w = for_each rest body w.
Proof.
  intros H. simpl. unfold mbind, gen_bind. rewrite H.
  now destruct (for_each rest body w) as [[ys r] w'].
Qed.

Lemma for_each_yield {A : Type} (body : A -> Gen unit) (x : A) (rest : list A)
    (w w1 : World) (ev : StreamEvent) :
  body x w = ([ev], Ok tt, w1) ->
  for_each (x :: rest) body w =
  let '(ys, r, w2) := for_each rest body w1 in (ev :: ys, r, w2).
Proof.
  intros H. simpl. unfold mbind, gen_bind. rewrite H.
  now destruct (for_each rest body w1) as [[ys r] w'].
Qed.

Lemma for_each_app_skip {A : Type} (body : A -> Gen unit) (x : A)
    (before after : list A) :
  (forall w, body x w = ([], Ok tt, w)) ->
  forall w, for_each (before ++ x :: after) body w =
            for_each (before ++ after) body w.
Proof.
  intros H. induction before as [|y before IH]; intros w.
  - apply for_each_skip, H.
  - simpl. unfold mbind, gen_bind.
    destruct (body y w) as [[ys [[]|e]] w1]; [|reflexivity].
    now rewrite IH.
Qed.

Lemma handle_line_undecodable (rt : Runtime) (start_time : float)
    (line s : string) (w : World) :
  bytes_decode line = Ok s ->
  json_loads rt (strip_data_prefix s) = Raise JSONDecodeError ->
  handle_line rt start_time line w = ([], Ok tt, w).
Proof.
  intros Hd Hj. unfold handle_line.
  destruct (String.eqb line ""); [reflexivity|]. simpl.
  unfold mbind at 1, gen_bind at 1. rewrite Hd. unfold gen_lift at 1.
  destruct (String.eqb (strip_data_prefix s) "[DONE]"); [reflexivity|].
  unfold try_except_JSONDecodeError, mbind, gen_bind, gen_lift.
  now rewrite Hj.
Qed.

(** C4, as the code has it: a line that is valid UTF-8 and whose payload
    [json.loads] rejects with JSONDecodeError is skipped: it yields no event,
    raises nothing and leaves the world as it was, and the stream goes on as
    if the line were not there, so the lines after it are handled as
    usual. *)
Theorem chat_stream_skips_invalid_json (rt : Runtime) (start_time : float)
    (line s : string) :
  bytes_decode line = Ok s ->
  json_loads rt (strip_data_prefix s) = Raise JSONDecodeError ->
  (forall w, handle_line rt start_time line w = ([], Ok tt, w))
  /\ (forall before after w,
        for_each (before ++ line :: after) (handle_line rt start_time) w =
        for_each (before ++ after) (handle_line rt start_time) w).
Proof.
  intros Hd Hj.
  assert (H : forall w, handle_line rt start_time line w = ([], Ok tt, w))
    by (intros w; now apply handle_line_undecodable with s).
  split; [exact H|]. intros before after. now apply for_each_app_skip.
Qed.

Lemma chat_stream_skips_invalid_json_witness :
  bytes_decode garbage_line = Ok garbage_line
  /\ json_loads offline (strip_data_prefix garbage_line) = Raise JSONDecodeError
  /\ for_each [garbage_line; hi_line] (handle_line offline 0%float)
       initial_world =
     ([(PStr "hi", 1000%float)], Ok tt, after_tick initial_world).
Proof.
  split; [reflexivity|]. split; [reflexivity|].
  refine (eq_trans
            (proj2 (chat_stream_skips_invalid_json offline 0%float
                      garbage_line garbage_line eq_refl eq_refl)
               [] [hi_line] initial_world) _).
  reflexivity.
Defined.

(** C4, as stated, fails: the line is decoded before the [try] block, so a
    line that is not valid UTF-8, whose payload cannot be parsed as JSON
    either, raises UnicodeDecodeError; the stream ends there, and the valid
    line after it, which yields an event on its own, yields none. *)
Lemma chat_stream_invalid_utf8_counterexample :
  bytes_decode invalid_utf8_line = Raise UnicodeDecodeError
  /\ for_each [invalid_utf8_line; hi_line] (handle_line offline 0%float)
       initial_world =
     ([], Raise UnicodeDecodeError, initial_world)
  /\ for_each [hi_line] (handle_line offline 0%float) initial_world =
     ([(PStr "hi", 1000%float)], Ok tt, after_tick initial_world).
Proof. repeat split. Qed.

Lemma handle_line_sentinel (rt : Runtime) (start_time : float)
    (line s : string) (w : World) :
  bytes_decode line = Ok s ->
  strip_data_prefix s = "[DONE]" ->
  handle_line rt start_time line w = ([], Ok tt, w).
Proof.
  intros Hd Hs. unfold handle_line.
  destruct (String.eqb line ""); [reflexivity|]. simpl.
  unfold mbind at 1, gen_bind at 1. rewrite Hd. unfold gen_lift at 1.
  now rewrite Hs.
Qed.

(** C6: a line whose payload, after the optional "data: " prefix is
    stripped, is [DONE] yields no event: it is skipped, whatever
    [json.loads] would make of it, and the stream goes on.  The lines
    "data: [DONE]" and "[DONE]" are such lines. *)
Theorem chat_stream_skips_done (rt : Runtime) (start_time : float)
    (line s : string) :
  bytes_decode line = Ok s ->
  strip_data_prefix s = "[DONE]" ->
  (forall w, handle_line rt start_time line w = ([], Ok tt, w))
  /\ (forall before after w,
        for_each (before ++ line :: after) (handle_line rt start_time) w =
        for_each (before ++ after) (handle_line rt start_time) w)
  /\ (forall w, handle_line rt start_time "data: [DONE]" w = ([], Ok tt, w))
  /\ (forall w, handle_line rt start_time "[DONE]" w = ([], Ok tt, w)).
Proof.
  intros Hd Hs.
  assert (H : forall w, handle_line rt start_time line w = ([], Ok tt, w))
    by (intros w; now apply handle_line_sentinel with s).
  split; [exact H|]. split; [intros before after; now apply for_each_app_skip|].
  split; intros w.
  - now apply handle_line_sentinel with "data: [DONE]".
  - now apply handle_line_sentinel with "[DONE]".
Qed.

Lemma chat_stream_skips_done_witness :
  bytes_decode done_line = Ok done_line
  /\ strip_data_prefix done_line = "[DONE]"
  /\ for_each [hi_line; done_line] (handle_line offline 0%float) initial_world =
     ([(PStr "hi", 1000%float)], Ok tt, after_tick initial_world).
Proof.
  split; [reflexivity|]. split; [reflexivity|].
  refine (eq_trans
            (proj1 (proj2 (chat_stream_skips_done offline 0%float
                             done_line done_line eq_refl eq_refl))
               [hi_line] [] initial_world) _).
  reflexivity.
Defined.

Lemma truthy_PStr (t : string) : truthy (PStr t) = true <-> t <> "".
Proof.
  simpl. destruct (String.eqb_spec t ""); simpl; split; congruence.
Qed.

Lemma handle_line_chunk (rt : Runtime) (start_time : float) (line s : string)
    (chunk : pyval) (w : World) :
  line <> "" ->
  bytes_decode line = Ok s ->
  strip_data_prefix s <> "[DONE]" ->
  json_loads rt (strip_data_prefix s) = Ok chunk ->
  handle_line rt start_time line w =
  try_except_JSONDecodeError (handle_chunk rt start_time chunk) (mret tt) w.
Proof.
  intros Hne Hd Hs Hj. unfold handle_line.
  destruct (String.eqb_spec line ""); [contradiction|]. simpl.
  unfold mbind at 1, gen_bind at 1. rewrite Hd. unfold gen_lift at 1.
  destruct (String.eqb_spec (strip_data_prefix s) "[DONE]"); [contradiction|].
  unfold try_except_JSONDecodeError, mbind at 1, gen_bind at 1.
  rewrite Hj. unfold gen_lift at 1.
  destruct (handle_chunk rt start_time chunk w) as [[ys [[]|e]] w'];
    [|destruct e]; reflexivity.
Qed.

Lemma handle_chunk_yields (rt : Runtime) (start_time : float) (d first : dict)
    (more : list pyval) (t : pyval) (w : World) :
  d !! "choices" = Some (PList (PDict first :: more)) ->
  first !! "text" = Some t ->
  truthy t = true ->
  handle_chunk rt start_time (PDict d) w =
  ([(t, (clock rt (ticks w) - start_time)%float)], Ok tt, after_tick w).
Proof.
  intros Hc Ht Htrue.
  unfold handle_chunk, mbind, gen_bind, gen_lift, py_get, py_getitem,
    dict_getitem, time_time, gen_yield.
  rewrite Hc. simpl. rewrite Ht. simpl. rewrite Htrue. reflexivity.
Qed.

Lemma handle_chunk_drops (rt : Runtime) (start_time : float) (d : dict)
    (w : World) :
  dropped_chunk d ->
  handle_chunk rt start_time (PDict d) w = ([], Ok tt, w).
Proof.
  unfold handle_chunk, mbind, mret, gen_bind, gen_ret, gen_lift, py_get,
    py_getitem, dict_getitem.
  intros [Hc | [(c & Hc & Hf) | (first & more & Hc & Ht)]]; rewrite Hc; simpl.
  - reflexivity.
  - now rewrite !Hf.
  - destruct (first !! "text") as [t|]; simpl; [now rewrite Ht | reflexivity].
Qed.

(** C5, as the code has it: for a line whose payload decodes to a JSON
    object: when its choices are a list whose first element is an object
    with a text that is not empty, exactly one event is yielded, carrying
    that text and the time elapsed since the start, and the stream goes on
    with the next line; when the object has no choices, or choices that are
    null or empty, or a first choice that is an object with no text or an
    empty one, nothing is yielded, nothing is raised and the stream goes
    on. *)
Theorem chat_stream_chunk_event (rt : Runtime) (start_time : float)
    (line s : string) (d : dict) :
  line <> "" ->
  bytes_decode line = Ok s ->
  strip_data_prefix s <> "[DONE]" ->
  json_loads rt (strip_data_prefix s) = Ok (PDict d) ->
  (forall first more t,
      d !! "choices" = Some (PList (PDict first :: more)) ->
      first !! "text" = Some t ->
      truthy t = true ->
      forall w,
        handle_line rt start_time line w =
          ([(t, (clock rt (ticks w) - start_time)%float)], Ok tt, after_tick w)
        /\ forall rest,
            for_each (line :: rest) (handle_line rt start_time) w =
            let '(ys, r, w') :=
              for_each rest (handle_line rt start_time) (after_tick w) in
            ((t, (clock rt (ticks w) - start_time)%float) :: ys, r, w'))
  /\ (dropped_chunk d ->
      (forall w, handle_line rt start_time line w = ([], Ok tt, w))
      /\ forall before after w,
          for_each (before ++ line :: after) (handle_line rt start_time) w =
          for_each (before ++ after) (handle_line rt start_time) w).
Proof.
  intros Hne Hd Hs Hj. split.
  - intros first more t Hc Ht Htrue w.
    assert (H : handle_line rt start_time line w =
                ([(t, (clock rt (ticks w) - start_time)%float)], Ok tt,
                 after_tick w)).
    { rewrite (handle_line_chunk rt start_time line s (PDict d) w Hne Hd Hs Hj).
      unfold try_except_JSONDecodeError.
      now rewrite (handle_chunk_yields rt start_time d first more t w Hc Ht Htrue). }
    split; [exact H|]. intros rest. now apply for_each_yield.
  - intros Hdrop.
    assert (H : forall w, handle_line rt start_time line w = ([], Ok tt, w)).
    { intros w.
      rewrite (handle_line_chunk rt start_time line s (PDict d) w Hne Hd Hs Hj).
      unfold try_except_JSONDecodeError.
      now rewrite (handle_chunk_drops rt start_time d w Hdrop). }
    split; [exact H|]. intros before after. now apply for_each_app_skip.
Qed.

Lemma chat_stream_chunk_event_witness :
  (hi_line <> ""
   /\ bytes_decode hi_line = Ok hi_line
   /\ strip_data_prefix hi_line <> "[DONE]"
   /\ json_loads offline (strip_data_prefix hi_line) = Ok (chunk_value "hi")
   /\ handle_line offline 0%float hi_line initial_world =
      ([(PStr "hi", 1000%float)], Ok tt, after_tick initial_world))
  /\ (no_text_line <> ""
      /\ bytes_decode no_text_line = Ok no_text_line
      /\ strip_data_prefix no_text_line <> "[DONE]"
      /\ json_loads offline (strip_data_prefix no_text_line) =
         Ok (PDict {[ "choices" := PList [PDict ∅] ]})
      /\ dropped_chunk {[ "choices" := PList [PDict ∅] ]}
      /\ for_each [no_text_line; hi_line] (handle_line offline 0%float)
           initial_world =
         ([(PStr "hi", 1000%float)], Ok tt, after_tick initial_world)).
Proof.
  assert (H1 : hi_line <> "") by discriminate.
  assert (H3 : strip_data_prefix hi_line <> "[DONE]") by discriminate.
  assert (N1 : no_text_line <> "") by discriminate.
  assert (N3 : strip_data_prefix no_text_line <> "[DONE]") by discriminate.
  assert (N5 : dropped_chunk {[ "choices" := PList [PDict ∅] ]}).
  { right; right. exists ∅, []. split; [reflexivity | exact I]. }
  split.
  - repeat (split; [first [exact H1 | exact H3 | reflexivity]|]).
    exact (proj1 (proj1 (chat_stream_chunk_event offline 0%float hi_line hi_line
                           {[ "choices" := PList [PDict {[ "text" := PStr "hi" ]}] ]}
                           H1 eq_refl H3 eq_refl)
                    {[ "text" := PStr "hi" ]} [] (PStr "hi")
                    eq_refl eq_refl eq_refl initial_world)).
  - repeat (split; [first [exact N1 | exact N3 | exact N5 | reflexivity]|]).
    refine (eq_trans
              (proj2 (proj2 (chat_stream_chunk_event offline 0%float
                               no_text_line no_text_line
                               {[ "choices" := PList [PDict ∅] ]}
                               N1 eq_refl N3 eq_refl) N5)
                 [] [hi_line] initial_world) _).
    reflexivity.
Defined.

(** C5, as stated, fails: the object [{"choices":[null]}] has no text in
    the first of its choices, yet it is not dropped: the lookup of the text
    raises AttributeError, which the [except] clause does not catch; the
    stream ends there, and the valid line after it, which yields an event on
    its own, yields none. *)
Lemma chat_stream_null_choice_counterexample :
  json_loads null_choice_runtime (strip_data_prefix null_choice_line) =
    Ok (PDict {[ "choices" := PList [PNone] ]})
  /\ for_each [null_choice_line; hi_line]
       (handle_line null_choice_runtime 0%float) initial_world =
     ([], Raise AttributeError, initial_world)
  /\ for_each [hi_line] (handle_line null_choice_runtime 0%float)
       initial_world =
     ([(PStr "hi", 1000%float)], Ok tt, after_tick initial_world).
Proof. repeat split. Qed.

(** ** Requests *)

Lemma sends_nothing_ret {A : Type} (a : A) : sends_nothing (mret a).
Proof. intros w. reflexivity. Qed.

Lemma sends_nothing_lift {A : Type} (r : result A) : sends_nothing (gen_lift r).
Proof. intros w. reflexivity. Qed.

Lemma sends_nothing_yield (ev : StreamEvent) : sends_nothing (gen_yield ev).
Proof. intros w. reflexivity. Qed.

Lemma sends_nothing_time (rt : Runtime) : sends_nothing (time_time rt).
Proof. intros w. reflexivity. Qed.

Lemma sends_nothing_bind {A B : Type} (m : Gen A) (f : A -> Gen B) :
  sends_nothing m -> (forall a, sends_nothing (f a)) ->
  sends_nothing (m ≫= f).
Proof.
  intros Hm Hf w. unfold mbind, gen_bind. specialize (Hm w).
  destruct (m w) as [[ys [a|e]] w1]; simpl in *; [|exact Hm].
  specialize (Hf a w1). destruct (f a w1) as [[ys' r] w2]; simpl in *.
  congruence.
Qed.

Lemma sends_nothing_try (body handler : Gen unit) :
  sends_nothing body -> sends_nothing handler ->
  sends_nothing (try_except_JSONDecodeError body handler).
Proof.
  intros Hb Hh w. unfold try_except_JSONDecodeError. specialize (Hb w).
  destruct (body w) as [[ys [a|e]] w1]; simpl in *; [exact Hb|].
  destruct e; simpl; try exact Hb.
  specialize (Hh w1). destruct (handler w1) as [[ys' r] w2]; simpl in *.
  congruence.
Qed.

Ltac sends_nothing_step :=
  lazymatch goal with
  | |- sends_nothing (if ?b then _ else _) => destruct b
  | |- sends_nothing (_ ≫= _) => apply sends_nothing_bind; [|intros ?]
  | |- sends_nothing (mret _) => apply sends_nothing_ret
  | |- sends_nothing (gen_lift _) => apply sends_nothing_lift
  | |- sends_nothing (gen_yield _) => apply sends_nothing_yield
  | |- sends_nothing (time_time _) => apply sends_nothing_time
  end.

Lemma sends_nothing_handle_chunk (rt : Runtime) (start_time : float)
    (chunk : pyval) :
  sends_nothing (handle_chunk rt start_time chunk).
Proof. unfold handle_chunk. repeat sends_nothing_step. Qed.

Lemma sends_nothing_handle_line (rt : Runtime) (start_time : float)
    (line : string) :
  sends_nothing (handle_line rt start_time line).
Proof.
  unfold handle_line. repeat sends_nothing_step.
  apply sends_nothing_try; [|apply sends_nothing_ret].
  sends_nothing_step; [sends_nothing_step | apply sends_nothing_handle_chunk].
Qed.

Lemma sends_nothing_for_each {A : Type} (body : A -> Gen unit) (l : list A) :
  (forall x, sends_nothing (body x)) -> sends_nothing (for_each l body).
Proof.
  intros H. induction l as [|x l IH]; simpl.
  - apply sends_nothing_ret.
  - apply sends_nothing_bind; [apply H | intros _; exact IH].
Qed.

(** [chat_stream], once the prompt is formatted: it reads the clock, posts
    the request, and goes by the answer. *)
Lemma chat_stream_formatted (rt : Runtime) (self : LLMClient)
    (messages : list dict) (model prompt : string) (w : World) :
  _format_phi_messages rt messages = Ok prompt ->
  chat_stream rt self messages model w =
  let req := completions_request self prompt model in
  let w1 := after_request req (after_tick w) in
  match serve rt req with
  | Ok response =>
    if negb (status_code response =? 200)
    then ([], Raise (Exception ("Error: " +:+ text response)), w1)
    else for_each (iter_lines response) (handle_line rt (clock rt (ticks w))) w1
  | Raise e => ([], Raise e, w1)
  end.
Proof.
  intros Hf. unfold chat_stream, mbind, gen_bind. rewrite Hf.
  unfold gen_lift, time_time, requests_post, send. simpl.
  fold (completions_request self prompt model).
  destruct (serve rt (completions_request self prompt model)) as [resp|e];
    [|reflexivity].
  destruct (negb (status_code resp =? 200)); [reflexivity|].
  unfold after_request, after_tick. simpl.
  now destruct (for_each _ _ _) as [[ys r] w2].
Qed.

(** C3: when the server answers the completion request with a status
    other than 200, the stream raises before it yields any event, and the
    message of the exception contains the body of the response. *)
Theorem chat_stream_fails_on_error_status (rt : Runtime) (self : LLMClient)
    (messages : list dict) (model prompt : string) (response : Response)
    (w : World) :
  _format_phi_messages rt messages = Ok prompt ->
  serve rt (completions_request self prompt model) = Ok response ->
  status_code response <> 200 ->
  chat_stream rt self messages model w =
    ([], Raise (Exception ("Error: " +:+ text response)),
     after_request (completions_request self prompt model) (after_tick w))
  /\ contains ("Error: " +:+ text response) (text response).
Proof.
  intros Hf Hs Hc. split.
  - rewrite (chat_stream_formatted rt self messages model prompt w Hf).
    simpl. rewrite Hs.
    destruct (Z.eqb_spec (status_code response) 200); [contradiction|].
    reflexivity.
  - exists "Error: ", "". now rewrite append_empty_r.
Qed.

Lemma chat_stream_fails_on_error_status_witness :
  _format_phi_messages (mock_runtime (Ok (not_found 404))) sample_conversation =
    Ok "<|system|>S<|end|><|user|>U<|end|><|assistant|>"
  /\ status_code (not_found 404) <> 200
  /\ chat_stream (mock_runtime (Ok (not_found 404))) (__init__ default_api_base)
       sample_conversation default_model initial_world =
     ([], Raise (Exception ("Error: " +:+ error_text)),
      after_request
        (completions_request (__init__ default_api_base)
           "<|system|>S<|end|><|user|>U<|end|><|assistant|>" default_model)
        (after_tick initial_world)).
Proof.
  assert (Hc : status_code (not_found 404) <> 200) by discriminate.
  split; [reflexivity|]. split; [exact Hc|].
  exact (proj1 (chat_stream_fails_on_error_status
                  (mock_runtime (Ok (not_found 404)))
                  (__init__ default_api_base) sample_conversation default_model
                  "<|system|>S<|end|><|user|>U<|end|><|assistant|>"
                  (not_found 404) initial_world eq_refl eq_refl Hc)).
Defined.

(** C7: a call of [chat_stream] whose prompt is formatted sends exactly one
    request, a POST to the completions endpoint, and the body of the request
    has exactly the nine fields prompt, model, stream, top_p, temperature,
    stop, max_tokens, presence_penalty and frequency_penalty, with the
    formatted prompt, the model and the fixed sampling values. *)
Theorem chat_stream_request_body (rt : Runtime) (self : LLMClient)
    (messages : list dict) (model prompt : string) (w : World) :
  _format_phi_messages rt messages = Ok prompt ->
  exists (req : Request) (data : dict),
    sent (chat_stream rt self messages model w).2 = sent w ++ [req]
    /\ req_method req = POST
    /\ req_url req = api_base self +:+ "/completions"
    /\ req_json req = Some (PDict data)
    /\ dom data =
         ({[ "prompt"; "model"; "stream"; "top_p"; "temperature"; "stop";
             "max_tokens"; "presence_penalty"; "frequency_penalty" ]}
          : gset string)
    /\ data !! "prompt" = Some (PStr prompt)
    /\ data !! "model" = Some (PStr model)
    /\ data !! "stream" = Some (PBool true)
    /\ data !! "top_p" = Some (PFloat 0.1%float)
    /\ data !! "temperature" = Some (PFloat 0.3%float)
    /\ data !! "stop" = Some (PList [PStr "<|endoftext|>"; PStr "<|end|>"])
    /\ data !! "max_tokens" = Some (PInt 1024)
    /\ data !! "presence_penalty" = Some (PFloat 0.0%float)
    /\ data !! "frequency_penalty" = Some (PFloat 0.0%float).
Proof.
  intros Hf.
  exists (completions_request self prompt model), (request_data prompt model).
  split.
  - rewrite (chat_stream_formatted rt self messages model prompt w Hf). simpl.
    destruct (serve rt (completions_request self prompt model)) as [resp|e];
      [|reflexivity].
    destruct (negb (status_code resp =? 200)); [reflexivity|].
    now rewrite (sends_nothing_for_each _ _ (sends_nothing_handle_line rt _)).
  - repeat split; reflexivity.
Qed.

Lemma chat_stream_request_body_witness :
  _format_phi_messages offline sample_conversation =
    Ok "<|system|>S<|end|><|user|>U<|end|><|assistant|>"
  /\ exists (req : Request) (data : dict),
      sent (chat_stream offline (__init__ default_api_base) sample_conversation
              default_model initial_world).2 = sent initial_world ++ [req]
      /\ req_method req = POST
      /\ req_url req = api_base (__init__ default_api_base) +:+ "/completions"
      /\ req_json req = Some (PDict data)
      /\ dom data =
           ({[ "prompt"; "model"; "stream"; "top_p"; "temperature"; "stop";
               "max_tokens"; "presence_penalty"; "frequency_penalty" ]}
            : gset string)
      /\ data !! "prompt" =
           Some (PStr "<|system|>S<|end|><|user|>U<|end|><|assistant|>")
      /\ data !! "model" = Some (PStr default_model)
      /\ data !! "stream" = Some (PBool true)
      /\ data !! "top_p" = Some (PFloat 0.1%float)
      /\ data !! "temperature" = Some (PFloat 0.3%float)
      /\ data !! "stop" = Some (PList [PStr "<|endoftext|>"; PStr "<|end|>"])
      /\ data !! "max_tokens" = Some (PInt 1024)
      /\ data !! "presence_penalty" = Some (PFloat 0.0%float)
      /\ data !! "frequency_penalty" = Some (PFloat 0.0%float).
Proof.
  split; [reflexivity|].
  exact (chat_stream_request_body offline (__init__ default_api_base)
           sample_conversation default_model
           "<|system|>S<|end|><|user|>U<|end|><|assistant|>" initial_world
           eq_refl).
Defined.

(** ** Listing the models *)

(** [list_models] sends its request and decodes the body of whatever
    response comes back: the status of the response is never read. *)
Lemma list_models_decodes_body (rt : Runtime) (self : LLMClient) (w : World)
    (response : Response) :
  serve rt (models_request self) = Ok response ->
  list_models rt self w =
  (json_loads rt (text response), after_request (models_request self) w).
Proof.
  intros H. unfold list_models, requests_get, send.
  fold (models_request self). now rewrite H.
Qed.

(** C8 (the code departs from the claim): when the server answers the
    request for the models with an error status, 404 or any other, and a
    body that is valid JSON, [list_models] raises nothing and returns the
    decoded error body as if it were the list of models. *)
Theorem list_models_returns_error_body (status : Z) :
  list_models (mock_runtime (Ok (not_found status)))
    (__init__ default_api_base) initial_world =
  (Ok error_value,
   after_request (models_request (__init__ default_api_base)) initial_world).
Proof. reflexivity. Qed.

(** ** Chunks outside the expected shape

    The handler of the [try] block catches [JSONDecodeError] only.  A payload
    that decodes to something other than an object, or to an object whose
    choices are not a list of objects, makes the stream raise. *)

Lemma handle_chunk_not_object (rt : Runtime) (start_time : float)
    (chunk : pyval) (w : World) :
  (forall d, chunk <> PDict d) ->
  try_except_JSONDecodeError (handle_chunk rt start_time chunk) (mret tt) w =
  ([], Raise AttributeError, w).
Proof.
  intros H. destruct chunk; try reflexivity. now destruct (H d).
Qed.

Lemma handle_chunk_choice_not_object (rt : Runtime) (start_time : float)
    (d : dict) (first : pyval) (more : list pyval) (w : World) :
  d !! "choices" = Some (PList (first :: more)) ->
  (forall c, first <> PDict c) ->
  try_except_JSONDecodeError (handle_chunk rt start_time (PDict d)) (mret tt) w =
  ([], Raise AttributeError, w).
Proof.
  intros Hc H.
  unfold try_except_JSONDecodeError, handle_chunk, mbind, gen_bind, gen_lift,
    py_get, py_getitem, dict_getitem.
  rewrite Hc. simpl. destruct first; try reflexivity. now destruct (H d0).
Qed.

(** * Further properties of the streaming client *)

(** ** What one line can do *)

Lemma exn_is_JSONDecodeError (e : exn) :
  e = JSONDecodeError \/ e <> JSONDecodeError.
Proof. destruct e; (now left) || (right; discriminate). Qed.

Lemma handle_chunk_outcome (rt : Runtime) (start_time : float) (chunk : pyval)
    (w : World) :
  handle_chunk rt start_time chunk w = ([], Ok tt, w)
  \/ (exists c, handle_chunk rt start_time chunk w =
        ([(c, (clock rt (ticks w) - start_time)%float)], Ok tt, after_tick w))
  \/ (exists e, handle_chunk rt start_time chunk w = ([], Raise e, w)
                /\ shape_error e).
Proof.
  unfold shape_error.
  destruct chunk as [| | | | |l|d];
    try (right; right; exists AttributeError; split; [reflexivity | tauto]).
  unfold handle_chunk, mbind, mret, gen_bind, gen_ret, gen_lift, py_get,
    py_getitem, dict_getitem, time_time, gen_yield.
  destruct (d !! "choices") as [c|] eqn:Hc; [|left; reflexivity].
  simpl. destruct (truthy c) eqn:Tc; [|left; now rewrite Tc].
  destruct c as [|b|z|f|s|l|c]; simpl in *; try discriminate;
    try (right; right; exists TypeError; split; [reflexivity | tauto]).
  - destruct s as [|a s]; [discriminate|]. simpl.
    right; right. exists AttributeError. split; [reflexivity | tauto].
  - destruct l as [|first more]; [discriminate|]. simpl.
    destruct first as [| | | | |l'|c];
      try (right; right; exists AttributeError; split; [reflexivity | tauto]).
    simpl. destruct (c !! "text") as [t|] eqn:Ht; simpl; [|left; reflexivity].
    destruct (truthy t) eqn:Tt; [|left; reflexivity].
    right; left. exists t. reflexivity.
  - right; right. exists (KeyError (PInt 0)). split; [reflexivity | tauto].
Qed.

Lemma bytes_decode_valid (line : string) :
  utf8_valid line = true -> bytes_decode line = Ok line.
Proof. intros H. unfold bytes_decode. now rewrite H. Qed.

Lemma handle_line_not_utf8 (rt : Runtime) (start_time : float) (line : string)
    (w : World) :
  line <> "" -> utf8_valid line = false ->
  handle_line rt start_time line w = ([], Raise UnicodeDecodeError, w).
Proof.
  intros Hne Hv. unfold handle_line.
  destruct (String.eqb_spec line ""); [contradiction|]. simpl.
  unfold mbind at 1, gen_bind at 1, bytes_decode. now rewrite Hv.
Qed.

Lemma handle_line_loads_raises (rt : Runtime) (start_time : float)
    (line s : string) (e : exn) (w : World) :
  line <> "" ->
  bytes_decode line = Ok s ->
  strip_data_prefix s <> "[DONE]" ->
  json_loads rt (strip_data_prefix s) = Raise e ->
  e <> JSONDecodeError ->
  handle_line rt start_time line w = ([], Raise e, w).
Proof.
  intros Hne Hd Hs Hj He. unfold handle_line.
  destruct (String.eqb_spec line ""); [contradiction|]. simpl.
  unfold mbind at 1, gen_bind at 1. rewrite Hd. unfold gen_lift at 1.
  destruct (String.eqb_spec (strip_data_prefix s) "[DONE]"); [contradiction|].
  unfold try_except_JSONDecodeError, mbind at 1, gen_bind at 1.
  rewrite Hj. unfold gen_lift at 1.
  destruct e; try reflexivity. now destruct He.
Qed.

Lemma try_except_not_JSONDecodeError (body handler : Gen unit) (w w' : World)
    (ys : list StreamEvent) (r : result unit) :
  body w = (ys, r, w') -> r <> Raise JSONDecodeError ->
  try_except_JSONDecodeError body handler w = (ys, r, w').
Proof.
  intros H Hr. unfold try_except_JSONDecodeError. rewrite H.
  destruct r as [a|e]; [reflexivity|]. destruct e; try reflexivity.
  now destruct Hr.
Qed.

Lemma handle_line_cases (rt : Runtime) (start_time : float)
    (line : string) (w : World) :
  handle_line rt start_time line w = ([], Ok tt, w)
  \/ (exists c, handle_line rt start_time line w =
        ([(c, (clock rt (ticks w) - start_time)%float)], Ok tt, after_tick w))
  \/ (exists e, handle_line rt start_time line w = ([], Raise e, w)
        /\ e <> JSONDecodeError
        /\ (e = UnicodeDecodeError
            \/ json_loads rt (strip_data_prefix line) = Raise e
            \/ shape_error e)).
Proof.
  destruct (String.eqb_spec line "") as [->|Hne]; [left; reflexivity|].
  destruct (utf8_valid line) eqn:Hv.
  2:{ right; right. exists UnicodeDecodeError.
      split; [now apply handle_line_not_utf8|].
      split; [discriminate | now left]. }
  apply bytes_decode_valid in Hv.
  destruct (String.eqb_spec (strip_data_prefix line) "[DONE]") as [Hs|Hs];
    [left; now apply handle_line_sentinel with line|].
  destruct (json_loads rt (strip_data_prefix line)) as [chunk|e] eqn:Hj.
  - rewrite (handle_line_chunk rt start_time line line chunk w Hne Hv Hs Hj).
    destruct (handle_chunk_outcome rt start_time chunk w)
      as [H | [(c & H) | (e & H & He)]].
    + left. now apply try_except_not_JSONDecodeError.
    + right; left. exists c. now apply try_except_not_JSONDecodeError.
    + assert (Hne' : e <> JSONDecodeError)
        by (destruct He as [-> | [-> | ->]]; discriminate).
      right; right. exists e. split.
      * apply try_except_not_JSONDecodeError; [exact H | congruence].
      * split; [exact Hne' | now right; right].
  - destruct (exn_is_JSONDecodeError e) as [->|He].
    + left. now apply handle_line_undecodable with line.
    + right; right. exists e. split.
      * now apply handle_line_loads_raises with line.
      * split; [exact He | now right; left].
Qed.

(** One line of the stream does one of three things: it is skipped; it
    yields exactly one event, stamped with the clock reading taken then,
    less the start time; or it raises, with nothing yielded: the decoding
    error of a line that is not UTF-8, an error of [json.loads] that is not
    a [JSONDecodeError], or AttributeError, TypeError or KeyError(0) for a
    chunk of an unexpected shape.  It never raises [JSONDecodeError]. *)
Theorem handle_line_outcome (rt : Runtime) (start_time : float)
    (line : string) (w : World) :
  handle_line rt start_time line w = ([], Ok tt, w)
  \/ (exists c, handle_line rt start_time line w =
        ([(c, (clock rt (ticks w) - start_time)%float)], Ok tt, after_tick w))
  \/ (exists e, handle_line rt start_time line w = ([], Raise e, w)
        /\ e <> JSONDecodeError
        /\ (e = UnicodeDecodeError
            \/ json_loads rt (strip_data_prefix line) = Raise e
            \/ shape_error e)).
Proof. exact (handle_line_cases rt start_time line w). Qed.

(** ** How the stream ends *)

Lemma for_each_app_raise {A : Type} (body : A -> Gen unit) (x : A)
    (before after : list A) (e : exn) :
  (forall w, body x w = ([], Raise e, w)) ->
  forall w, for_each (before ++ x :: after) body w =
            then_raise e (for_each before body w).
Proof.
  intros H. induction before as [|y before IH]; intros w; simpl.
  - unfold mbind, gen_bind. now rewrite H.
  - unfold mbind, gen_bind.
    destruct (body y w) as [[ys [[]|e']] w1]; [|reflexivity].
    rewrite IH. unfold then_raise.
    now destruct (for_each before body w1) as [[ys' r'] w2].
Qed.

(** A line that is not valid UTF-8 ends the stream with
    UnicodeDecodeError: the events of the lines before it stay, and the
    lines after it are never handled. *)
Theorem stream_ends_on_invalid_utf8 (rt : Runtime) (start_time : float)
    (line : string) (before after : list string) (w : World) :
  line <> "" ->
  utf8_valid line = false ->
  for_each (before ++ line :: after) (handle_line rt start_time) w =
  then_raise UnicodeDecodeError (for_each before (handle_line rt start_time) w).
Proof.
  intros Hne Hv. apply for_each_app_raise.
  intros w'. now apply handle_line_not_utf8.
Qed.

Lemma handle_chunk_unexpected (rt : Runtime) (start_time : float)
    (chunk : pyval) (e : exn) (w : World) :
  unexpected_chunk chunk e ->
  handle_chunk rt start_time chunk w = ([], Raise e, w).
Proof.
  intros H. destruct H as [chunk H | d c Hc Tc Hk | d c Hc Tc | d s Hc Hs
                           | d first more Hc H].
  - destruct chunk; try reflexivity. now destruct (H d).
  - unfold handle_chunk, mbind, gen_bind, gen_lift, py_get, py_getitem,
      dict_getitem.
    rewrite Hc. simpl. rewrite Tc.
    destruct Hk as [[b ->] | [[z ->] | [f ->]]]; reflexivity.
  - unfold handle_chunk, mbind, gen_bind, gen_lift, py_get, py_getitem,
      dict_getitem.
    rewrite Hc. simpl in Tc |- *. now rewrite Tc.
  - unfold handle_chunk, mbind, gen_bind, gen_lift, py_get, py_getitem,
      dict_getitem.
    rewrite Hc. destruct s as [|a s]; [contradiction|]. reflexivity.
  - unfold handle_chunk, mbind, gen_bind, gen_lift, py_get, py_getitem,
      dict_getitem.
    rewrite Hc. simpl. destruct first; try reflexivity. now destruct (H d0).
Qed.

Lemma unexpected_chunk_shape_error (chunk : pyval) (e : exn) :
  unexpected_chunk chunk e -> shape_error e.
Proof. unfold shape_error. destruct 1; tauto. Qed.

(** The [except] clause catches [JSONDecodeError] only: a payload that
    decodes to something other than an object, or to an object whose choices
    are not a list headed by an object, ends the stream with AttributeError,
    TypeError or KeyError(0); the events of the lines before it stay, and
    the lines after it are never handled. *)
Theorem stream_ends_on_unexpected_chunk (rt : Runtime) (start_time : float)
    (line s : string) (chunk : pyval) (e : exn) (before after : list string)
    (w : World) :
  line <> "" ->
  bytes_decode line = Ok s ->
  strip_data_prefix s <> "[DONE]" ->
  json_loads rt (strip_data_prefix s) = Ok chunk ->
  unexpected_chunk chunk e ->
  shape_error e
  /\ for_each (before ++ line :: after) (handle_line rt start_time) w =
     then_raise e (for_each before (handle_line rt start_time) w).
Proof.
  intros Hne Hd Hs Hj Hu.
  pose proof (unexpected_chunk_shape_error chunk e Hu) as Hshape.
  split; [exact Hshape|].
  apply for_each_app_raise. intros w'.
  rewrite (handle_line_chunk rt start_time line s chunk w' Hne Hd Hs Hj).
  apply try_except_not_JSONDecodeError.
  - now apply handle_chunk_unexpected.
  - destruct Hshape as [-> | [-> | ->]]; discriminate.
Qed.

Lemma stream_ends_on_invalid_utf8_witness :
  invalid_utf8_line <> ""
  /\ utf8_valid invalid_utf8_line = false
  /\ for_each ([hi_line] ++ invalid_utf8_line :: [hi_line])
       (handle_line offline 0%float) initial_world =
     ([(PStr "hi", 1000%float)], Raise UnicodeDecodeError,
      after_tick initial_world).
Proof.
  assert (H : invalid_utf8_line <> "") by discriminate.
  split; [exact H|]. split; [reflexivity|].
  exact (stream_ends_on_invalid_utf8 offline 0%float invalid_utf8_line
           [hi_line] [hi_line] initial_world H eq_refl).
Defined.

Lemma stream_ends_on_unexpected_chunk_witness :
  number_line <> ""
  /\ bytes_decode number_line = Ok number_line
  /\ strip_data_prefix number_line <> "[DONE]"
  /\ json_loads number_runtime (strip_data_prefix number_line) = Ok (PInt 5)
  /\ unexpected_chunk (PInt 5) AttributeError
  /\ for_each ([hi_line] ++ number_line :: [hi_line])
       (handle_line number_runtime 0%float) initial_world =
     ([(PStr "hi", 1000%float)], Raise AttributeError,
      after_tick initial_world).
Proof.
  assert (H1 : number_line <> "") by discriminate.
  assert (H3 : strip_data_prefix number_line <> "[DONE]") by discriminate.
  assert (H5 : unexpected_chunk (PInt 5) AttributeError)
    by (apply chunk_not_object; discriminate).
  repeat (split; [first [exact H1 | exact H3 | exact H5 | reflexivity]|]).
  exact (proj2 (stream_ends_on_unexpected_chunk number_runtime 0%float
                  number_line number_line (PInt 5) AttributeError
                  [hi_line] [hi_line] initial_world H1 eq_refl H3 eq_refl H5)).
Defined.

(** ** The clock and the events *)

Lemma seq_map_shift {B : Type} (f : nat -> B) (n : nat) :
  map f (seq 1 n) = map (fun k => f (S k)) (seq 0 n).
Proof. now rewrite <- seq_shift, map_map. Qed.

(** The loop over the lines reads the clock once for each event it yields,
    sends nothing, yields at most one event a line, stamps the events with
    the successive clock readings less the start time, and never raises
    [JSONDecodeError]. *)
Lemma for_each_handle_line_invariant (rt : Runtime) (start_time : float)
    (lines : list string) (w : World) :
  let run := for_each lines (handle_line rt start_time) w in
  ticks run.2 = (ticks w + length run.1.1)%nat
  /\ sent run.2 = sent w
  /\ (length run.1.1 <= length lines)%nat
  /\ map snd run.1.1 =
     map (fun k => (clock rt (ticks w + k) - start_time)%float)
       (seq 0 (length run.1.1))
  /\ run.1.2 <> Raise JSONDecodeError.
Proof.
  revert w. induction lines as [|line lines IH]; intros w.
  - simpl. repeat split; try lia. discriminate.
  - cbn zeta. simpl for_each. unfold mbind, gen_bind.
    destruct (handle_line_cases rt start_time line w)
      as [H | [(c & H) | (e & H & He & _)]]; rewrite H.
    + specialize (IH w). cbn zeta in IH.
      destruct (for_each lines (handle_line rt start_time) w) as [[ys r] w'].
      simpl in *. destruct IH as (I1 & I2 & I3 & I4 & I5).
      repeat split; try assumption; lia.
    + specialize (IH (after_tick w)). cbn zeta in IH.
      destruct (for_each lines (handle_line rt start_time) (after_tick w))
        as [[ys r] w'].
      simpl in *. destruct IH as (I1 & I2 & I3 & I4 & I5).
      repeat split; try assumption; try lia.
      rewrite Nat.add_0_r. f_equal. rewrite I4, seq_map_shift.
      apply map_ext. intros k. now rewrite Nat.add_succ_r.
    + simpl. repeat split; try lia. congruence.
Qed.

(** [chat_stream] with a formatted prompt reads the clock once before it
    sends the request and once more for each event it yields; each event
    carries the reading taken when it is yielded less the reading taken
    before the request; and there is at most one event for each line of the
    response. *)
Theorem chat_stream_elapsed_times (rt : Runtime) (self : LLMClient)
    (messages : list dict) (model prompt : string) (w : World) :
  _format_phi_messages rt messages = Ok prompt ->
  let run := chat_stream rt self messages model w in
  ticks run.2 = (ticks w + 1 + length run.1.1)%nat
  /\ map snd run.1.1 =
     map (fun k => (clock rt (ticks w + 1 + k) - clock rt (ticks w))%float)
       (seq 0 (length run.1.1))
  /\ (forall response,
        serve rt (completions_request self prompt model) = Ok response ->
        (length run.1.1 <= length (iter_lines response))%nat).
Proof.
  intros Hf. cbn zeta.
  rewrite (chat_stream_formatted rt self messages model prompt w Hf).
  cbn zeta.
  destruct (serve rt (completions_request self prompt model)) as [resp|e].
  2:{ simpl. repeat split; lia. }
  destruct (negb (status_code resp =? 200)).
  { simpl. repeat split; lia. }
  pose proof (for_each_handle_line_invariant rt (clock rt (ticks w))
                (iter_lines resp)
                (after_request (completions_request self prompt model)
                   (after_tick w))) as H.
  cbn zeta in H.
  destruct (for_each _ _ _) as [[ys r] w'].
  simpl in *. destruct H as (I1 & I2 & I3 & I4 & I5).
  split; [lia|]. split.
  - rewrite I4. apply map_ext. intros k.
    f_equal. f_equal. lia.
  - intros response Hr. inversion Hr. now subst.
Qed.

Lemma chat_stream_elapsed_times_witness :
  _format_phi_messages hello_runtime sample_conversation =
    Ok "<|system|>S<|end|><|user|>U<|end|><|assistant|>"
  /\ (chat_stream hello_runtime (__init__ default_api_base) sample_conversation
        default_model initial_world).1.1 =
     [(PStr "Hello", 0.5%float); (PStr " ", 1%float); (PStr "world", 1.5%float)]
  /\ ticks (chat_stream hello_runtime (__init__ default_api_base)
              sample_conversation default_model initial_world).2 =
     (ticks initial_world + 1
      + length (chat_stream hello_runtime (__init__ default_api_base)
                  sample_conversation default_model initial_world).1.1)%nat.
Proof.
  split; [reflexivity|]. split; [reflexivity|].
  exact (proj1 (chat_stream_elapsed_times hello_runtime
                  (__init__ default_api_base) sample_conversation default_model
                  "<|system|>S<|end|><|user|>U<|end|><|assistant|>"
                  initial_world eq_refl)).
Defined.

(** ** Failures before the stream *)



(** When sending the request fails, [chat_stream] raises that failure as
    it is: nothing is yielded, and the one request stays the only one sent,
    for nothing is tried again. *)
Theorem chat_stream_transport_failure (rt : Runtime) (self : LLMClient)
    (messages : list dict) (model prompt : string) (e : exn) (w : World) :
  _format_phi_messages rt messages = Ok prompt ->
  serve rt (completions_request self prompt model) = Raise e ->
  chat_stream rt self messages model w =
  ([], Raise e,
   after_request (completions_request self prompt model) (after_tick w)).
Proof.
  intros Hf Hs.
  rewrite (chat_stream_formatted rt self messages model prompt w Hf).
  cbn zeta. now rewrite Hs.
Qed.

Lemma chat_stream_transport_failure_witness :
  _format_phi_messages offline sample_conversation =
    Ok "<|system|>S<|end|><|user|>U<|end|><|assistant|>"
  /\ chat_stream offline (__init__ default_api_base) sample_conversation
       default_model initial_world =
     ([], Raise RequestException,
      after_request
        (completions_request (__init__ default_api_base)
           "<|system|>S<|end|><|user|>U<|end|><|assistant|>" default_model)
        (after_tick initial_world)).
Proof.
  split; [reflexivity|].
  exact (chat_stream_transport_failure offline (__init__ default_api_base)
           sample_conversation default_model
           "<|system|>S<|end|><|user|>U<|end|><|assistant|>"
           RequestException initial_world eq_refl eq_refl).
Defined.

(** ** The prefix of a line *)

Lemma strip_data_prefix_data (p : string) :
  strip_data_prefix ("data: " +:+ p) = p.
Proof. destruct p; reflexivity. Qed.

Lemma strip_data_prefix_other (p : string) :
  startswith p "data: " = false -> strip_data_prefix p = p.
Proof. intros H. unfold strip_data_prefix. now rewrite H. Qed.

Lemma utf8_valid_data (p : string) :
  utf8_valid ("data: " +:+ p) = utf8_valid p.
Proof. reflexivity. Qed.

(** The prefix is optional: a line that does not start with "data: " is
    handled as the same line with "data: " put before it. *)
Theorem handle_line_prefix_optional (rt : Runtime) (start_time : float)
    (p : string) (w : World) :
  p <> "" ->
  startswith p "data: " = false ->
  handle_line rt start_time ("data: " +:+ p) w = handle_line rt start_time p w.
Proof.
  intros Hne Hp. unfold handle_line.
  destruct (String.eqb_spec p ""); [contradiction|].
  change (String.eqb ("data: " +:+ p) "") with false. simpl negb. cbv iota.
  unfold mbind at 1 3, gen_bind at 1 3, bytes_decode.
  rewrite utf8_valid_data. destruct (utf8_valid p); [|reflexivity].
  unfold gen_lift at 1 3.
  now rewrite strip_data_prefix_data, (strip_data_prefix_other p Hp).
Qed.

Lemma handle_line_prefix_optional_witness :
  chunk_text "hi" <> ""
  /\ startswith (chunk_text "hi") "data: " = false
  /\ handle_line offline 0%float (chunk_text "hi") initial_world =
     ([(PStr "hi", 1000%float)], Ok tt, after_tick initial_world).
Proof.
  assert (H : chunk_text "hi" <> "") by discriminate.
  split; [exact H|]. split; [reflexivity|].
  refine (eq_trans
            (eq_sym (handle_line_prefix_optional offline 0%float
                       (chunk_text "hi") initial_world H eq_refl)) _).
  reflexivity.
Defined.

(** ** A whole stream *)

Lemma chunk_text_not_done (t : string) : chunk_text t <> "[DONE]".
Proof. intros H. apply (f_equal (String.get 0)) in H. discriminate H. Qed.

Lemma data_line_not_empty (p : string) : "data: " +:+ p <> "".
Proof. intros H. apply (f_equal (String.get 0)) in H. discriminate H. Qed.

Lemma handle_line_chunk_text (rt : Runtime) (start_time : float) (t : string)
    (w : World) :
  decodes_chunk rt t ->
  handle_line rt start_time ("data: " +:+ chunk_text t) w =
  if nonempty t
  then ([(PStr t, (clock rt (ticks w) - start_time)%float)], Ok tt, after_tick w)
  else ([], Ok tt, w).
Proof.
  intros [Hd Hj].
  rewrite (handle_line_chunk rt start_time _ _ (chunk_value t) w
             (data_line_not_empty _) Hd).
  2:{ rewrite strip_data_prefix_data. apply chunk_text_not_done. }
  2:{ now rewrite strip_data_prefix_data. }
  destruct (nonempty t) eqn:Ht;
    (apply try_except_not_JSONDecodeError; [|discriminate]).
  - apply (handle_chunk_yields rt start_time _ {[ "text" := PStr t ]} []);
      [reflexivity | reflexivity | exact Ht].
  - apply handle_chunk_drops. right; right.
    exists {[ "text" := PStr t ]}, []. split; [reflexivity|].
    change ({[ "text" := PStr t ]} !! "text") with (Some (PStr t)).
    exact Ht.
Qed.

Lemma for_each_chunk_lines (rt : Runtime) (start_time : float)
    (ts : list string) :
  Forall (decodes_chunk rt) ts ->
  forall w,
    let run := for_each (chunk_lines ts) (handle_line rt start_time) w in
    map fst run.1.1 = map PStr (List.filter nonempty ts)
    /\ run.1.2 = Ok tt.
Proof.
  unfold chunk_lines. induction 1 as [|t ts Ht _ IH]; intros w.
  - cbn zeta. simpl app.
    rewrite for_each_skip
      by now apply handle_line_sentinel with "data: [DONE]".
    now split.
  - cbn zeta. simpl app. simpl for_each. unfold mbind, gen_bind.
    rewrite (handle_line_chunk_text rt start_time t w Ht).
    simpl List.filter. destruct (nonempty t).
    + specialize (IH (after_tick w)). cbn zeta in IH.
      destruct (for_each _ _ (after_tick w)) as [[ys r] w'].
      simpl in *. destruct IH as [I1 I2]. split; [now rewrite I1 | exact I2].
    + specialize (IH w). cbn zeta in IH.
      destruct (for_each _ _ w) as [[ys r] w']. exact IH.
Qed.

(** End to end: when the server answers with status 200 and a stream of
    chunk lines closed by the sentinel, [chat_stream] yields the texts of the
    chunks in their order, leaving out the empty ones, and then returns. *)
Theorem chat_stream_yields_fragments (rt : Runtime) (self : LLMClient)
    (messages : list dict) (model prompt : string) (response : Response)
    (ts : list string) (w : World) :
  _format_phi_messages rt messages = Ok prompt ->
  serve rt (completions_request self prompt model) = Ok response ->
  status_code response = 200 ->
  iter_lines response = chunk_lines ts ->
  Forall (decodes_chunk rt) ts ->
  let run := chat_stream rt self messages model w in
  map fst run.1.1 = map PStr (List.filter nonempty ts)
  /\ run.1.2 = Ok tt.
Proof.
  intros Hf Hs Hc Hl Hts. cbn zeta.
  rewrite (chat_stream_formatted rt self messages model prompt w Hf).
  cbn zeta. rewrite Hs, Hc, Hl. simpl negb. cbv iota.
  apply (for_each_chunk_lines rt _ ts Hts).
Qed.

Lemma chat_stream_yields_fragments_witness :
  _format_phi_messages hello_runtime sample_conversation =
    Ok "<|system|>S<|end|><|user|>U<|end|><|assistant|>"
  /\ Forall (decodes_chunk hello_runtime) ["Hello"; " "; "world"]
  /\ map fst
       (chat_stream hello_runtime (__init__ default_api_base)
          sample_conversation default_model initial_world).1.1 =
     [PStr "Hello"; PStr " "; PStr "world"]
  /\ (chat_stream hello_runtime (__init__ default_api_base)
        sample_conversation default_model initial_world).1.2 = Ok tt.
Proof.
  assert (H : Forall (decodes_chunk hello_runtime) ["Hello"; " "; "world"])
    by (repeat constructor).
  split; [reflexivity|]. split; [exact H|].
  exact (chat_stream_yields_fragments hello_runtime (__init__ default_api_base)
           sample_conversation default_model
           "<|system|>S<|end|><|user|>U<|end|><|assistant|>"
           hello_response ["Hello"; " "; "world"] initial_world
           eq_refl eq_refl eq_refl eq_refl H).
Defined.

(** * Further properties of the formatter *)

Lemma find_app_skip {A : Type} (p : A -> bool) (before after : list A) (x : A) :
  p x = false ->
  List.find p (before ++ x :: after) = List.find p (before ++ after).
Proof.
  intros Hx. induction before as [|y before IH]; simpl.
  - now rewrite Hx.
  - now rewrite IH.
Qed.

(** A message that is neither a system nor a user message, an assistant
    turn for one, is ignored: with a role on every message, the prompt is
    the same with the message taken out. *)
Theorem format_phi_messages_ignores_other_roles (rt : Runtime)
    (before after : list dict) (m : dict) :
  Forall (has_key "role") (before ++ m :: after) ->
  is_role "system" m = false ->
  is_role "user" m = false ->
  _format_phi_messages rt (before ++ m :: after) =
  _format_phi_messages rt (before ++ after).
Proof.
  intros Hall Hs Hu.
  assert (Hall' : Forall (has_key "role") (before ++ after)).
  { apply List.Forall_app in Hall as [Hb Ha]. apply List.Forall_app.
    split; [exact Hb | now inversion Ha]. }
  rewrite (format_render rt _ Hall), (format_render rt _ Hall').
  unfold first_with_role, last_with_role.
  rewrite (find_app_skip _ before after m Hs).
  rewrite !rev_app_distr. simpl rev. rewrite <- app_assoc. simpl app.
  now rewrite (find_app_skip _ (rev after) (rev before) m Hu).
Qed.

Lemma format_phi_messages_ignores_other_roles_witness :
  Forall (has_key "role")
    ([message "system" "S"] ++ message "assistant" "A" :: [message "user" "U"])
  /\ is_role "system" (message "assistant" "A") = false
  /\ is_role "user" (message "assistant" "A") = false
  /\ _format_phi_messages offline
       ([message "system" "S"] ++ message "assistant" "A" :: [message "user" "U"])
     = _format_phi_messages offline ([message "system" "S"] ++ [message "user" "U"]).
Proof.
  assert (H : Forall (has_key "role")
                ([message "system" "S"] ++ message "assistant" "A"
                   :: [message "user" "U"]))
    by (repeat constructor; apply well_formed_message).
  split; [exact H|]. split; [reflexivity|]. split; [reflexivity|].
  exact (format_phi_messages_ignores_other_roles offline
           [message "system" "S"] [message "user" "U"]
           (message "assistant" "A") H eq_refl eq_refl).
Defined.

(** A new user turn replaces the one before it: after a user message with
    content [U] is put at the end, the prompt is the system block as before
    followed by the user block of [U]; the earlier user messages are not
    read, and need not even have a content. *)
Theorem format_phi_messages_append_user (rt : Runtime) (msgs : list dict)
    (U : string) :
  Forall (has_key "role") msgs ->
  (forall d, first_with_role "system" msgs = Some d -> has_key "content" d) ->
  _format_phi_messages rt (msgs ++ [message "user" U]) =
  Ok (system_block rt (content_of (first_with_role "system" msgs))
      +:+ "<|user|>" +:+ U +:+ "<|end|><|assistant|>").
Proof.
  intros Hall Hsys.
  assert (Hall' : Forall (has_key "role") (msgs ++ [message "user" U])).
  { apply List.Forall_app. split; [exact Hall|].
    repeat constructor. apply well_formed_message. }
  rewrite (format_render rt _ Hall').
  assert (Hf : first_with_role "system" (msgs ++ [message "user" U]) =
               first_with_role "system" msgs).
  { unfold first_with_role. rewrite find_snoc.
    now destruct (List.find (is_role "system") msgs). }
  assert (Hl : last_with_role "user" (msgs ++ [message "user" U]) =
               Some (message "user" U)).
  { unfold last_with_role. now rewrite rev_unit. }
  rewrite Hf, Hl. rewrite render_well_formed; [reflexivity | exact Hsys |].
  intros d Hd. inversion Hd. apply well_formed_message.
Qed.

Lemma format_phi_messages_append_user_witness :
  Forall (has_key "role") long_conversation
  /\ (forall d, first_with_role "system" long_conversation = Some d ->
                has_key "content" d)
  /\ _format_phi_messages offline long_conversation =
     Raise (KeyError (PStr "content"))
  /\ _format_phi_messages offline (long_conversation ++ [message "user" "U"]) =
     Ok "<|system|>S<|end|><|user|>U<|end|><|assistant|>".
Proof.
  assert (H1 : Forall (has_key "role") long_conversation)
    by (repeat constructor; eexists; reflexivity).
  assert (H2 : forall d, first_with_role "system" long_conversation = Some d ->
                         has_key "content" d).
  { intros d Hd. inversion Hd. apply well_formed_message. }
  split; [exact H1|]. split; [exact H2|]. split; [reflexivity|].
  refine (eq_trans (format_phi_messages_append_user offline long_conversation
                      "U" H1 H2) _).
  reflexivity.
Defined.

Lemma next_system_found (before after : list dict) (d : dict) :
  Forall (has_key "role") before ->
  Forall (fun m => is_role "system" m = false) before ->
  is_role "system" d = true ->
  next_system (before ++ d :: after) = Ok (Some d).
Proof.
  intros Hr Hn Hd. induction before as [|m before IH]; simpl.
  - unfold is_role in Hd. unfold dict_getitem.
    destruct (d !! "role") as [v|]; [|discriminate]. unfold_bind.
    now rewrite Hd.
  - inversion Hr as [|? ? Hm Hr']; inversion Hn as [|? ? Hm' Hn']; subst.
    destruct (dict_getitem_Ok m "role" Hm) as (v & Hv & ->). unfold_bind.
    rewrite <- (is_role_getitem "system" m v Hv), Hm'. now apply IH.
Qed.

(** The system message is looked for lazily: when the first system message
    has no content, the formatter raises KeyError('content') without looking
    at the messages after it, so whatever they are, even messages without a
    role. *)
Theorem format_phi_messages_system_without_content (rt : Runtime)
    (before after : list dict) (d : dict) :
  Forall (has_key "role") before ->
  Forall (fun m => is_role "system" m = false) before ->
  is_role "system" d = true ->
  ~ has_key "content" d ->
  _format_phi_messages rt (before ++ d :: after) =
  Raise (KeyError (PStr "content")).
Proof.
  intros Hr Hn Hd Hc. unfold _format_phi_messages.
  rewrite (next_system_found before after d Hr Hn Hd). unfold_bind.
  rewrite (has_key_truthy "role" d (is_role_has_key "system" d Hd)).
  unfold dict_getitem, has_key in *.
  destruct (d !! "content") as [v|]; [|reflexivity].
  destruct Hc. now exists v.
Qed.

Lemma format_phi_messages_system_without_content_witness :
  Forall (has_key "role") [message "assistant" "A"]
  /\ Forall (fun m => is_role "system" m = false) [message "assistant" "A"]
  /\ is_role "system" ({[ "role" := PStr "system" ]} : dict) = true
  /\ ~ has_key "content" ({[ "role" := PStr "system" ]} : dict)
  /\ _format_phi_messages offline broken_conversation =
     Raise (KeyError (PStr "content")).
Proof.
  assert (H1 : Forall (has_key "role") [message "assistant" "A"])
    by (repeat constructor; apply well_formed_message).
  assert (H2 : Forall (fun m => is_role "system" m = false)
                 [message "assistant" "A"]) by (repeat constructor).
  assert (H4 : ~ has_key "content" ({[ "role" := PStr "system" ]} : dict)).
  { intros [v Hv]. vm_compute in Hv. discriminate Hv. }
  split; [exact H1|]. split; [exact H2|]. split; [reflexivity|].
  split; [exact H4|].
  exact (format_phi_messages_system_without_content offline
           [message "assistant" "A"] [∅] {[ "role" := PStr "system" ]}
           H1 H2 eq_refl H4).
Defined.

Lemma find_all_false {A : Type} (p : A -> bool) (l : list A) :
  List.find p l = None <-> Forall (fun x => p x = false) l.
Proof.
  induction l as [|x l IH]; simpl.
  - split; [constructor | reflexivity].
  - destruct (p x) eqn:Px.
    + split; [discriminate|]. intros H. inversion H. congruence.
    + rewrite IH. split; [now constructor | now inversion 1].
Qed.

Ltac not_empty_prompt H :=
  solve [ discriminate H
        | inversion H
        | let H' := fresh in
          inversion H as [H']; apply (f_equal (String.get 0)) in H';
          lazy in H'; discriminate H' ].

Lemma render_empty (rt : Runtime) (sys usr : option dict) :
  render rt sys usr = Ok "" <-> sys = None /\ usr = None.
Proof.
  split.
  - unfold render, dict_getitem. intros H.
    destruct sys as [d|].
    + destruct (d !! "content"); unfold_bind; [|not_empty_prompt H].
      destruct usr as [u|]; [destruct (u !! "content")|]; not_empty_prompt H.
    + unfold_bind. destruct usr as [u|]; [|now split].
      destruct (u !! "content"); not_empty_prompt H.
  - now intros [-> ->].
Qed.

(** With a role on every message, the prompt is empty exactly when the
    list has neither a system message nor a user message. *)
Theorem format_phi_messages_empty_iff (rt : Runtime) (msgs : list dict) :
  Forall (has_key "role") msgs ->
  _format_phi_messages rt msgs = Ok "" <->
  Forall (fun m => is_role "system" m = false /\ is_role "user" m = false) msgs.
Proof.
  intros Hall. rewrite (format_render rt msgs Hall), render_empty.
  unfold first_with_role, last_with_role. rewrite !find_all_false.
  rewrite !List.Forall_forall. split.
  - intros [Hs Hu] m Hm. split; [now apply Hs|].
    apply Hu. now rewrite <- in_rev.
  - intros H. split; intros m Hm.
    + now apply H.
    + rewrite <- in_rev in Hm. now apply H.
Qed.

Lemma format_phi_messages_empty_iff_witness :
  Forall (has_key "role") [message "assistant" "A"; message "tool" "T"]
  /\ _format_phi_messages offline
       [message "assistant" "A"; message "tool" "T"] = Ok "".
Proof.
  assert (H : Forall (has_key "role")
                [message "assistant" "A"; message "tool" "T"])
    by (repeat constructor; apply well_formed_message).
  split; [exact H|].
  apply (proj2 (format_phi_messages_empty_iff offline _ H)).
  repeat constructor.
Defined.

(** * Further properties of the model listing *)

(** [list_models] translates no error: a failure to send the request is
    raised as it is, and so is the failure to decode a body that is not
    JSON; in every case exactly one GET request, without a body, has been
    sent to the models endpoint. *)
Theorem list_models_propagates (rt : Runtime) (self : LLMClient) (w : World) :
  (forall e, serve rt (models_request self) = Raise e ->
             (list_models rt self w).1 = Raise e)
  /\ (forall response e,
        serve rt (models_request self) = Ok response ->
        json_loads rt (text response) = Raise e ->
        (list_models rt self w).1 = Raise e)
  /\ sent (list_models rt self w).2 = sent w ++ [models_request self]
  /\ req_method (models_request self) = GET
  /\ req_url (models_request self) = api_base self +:+ "/models"
  /\ req_json (models_request self) = None.
Proof.
  split; [|split; [|split; [|repeat split]]].
  - intros e He. unfold list_models, requests_get, send.
    fold (models_request self). now rewrite He.
  - intros response e Hs Hj.
    now rewrite (list_models_decodes_body rt self w response Hs).
  - unfold list_models, requests_get, send. fold (models_request self).
    now destruct (serve rt (models_request self)).
Qed.

(** * Properties of the demonstration *)

Lemma chat_stream_sent (rt : Runtime) (self : LLMClient)
    (messages : list dict) (model prompt : string) (w : World) :
  _format_phi_messages rt messages = Ok prompt ->
  sent (chat_stream rt self messages model w).2 =
  sent w ++ [completions_request self prompt model].
Proof.
  intros Hf.
  rewrite (chat_stream_formatted rt self messages model prompt w Hf). simpl.
  destruct (serve rt (completions_request self prompt model)) as [resp|e];
    [|reflexivity].
  destruct (negb (status_code resp =? 200)); [reflexivity|].
  now rewrite (sends_nothing_for_each _ _ (sends_nothing_handle_line rt _)).
Qed.

Lemma format_single_user (rt : Runtime) (c : string) :
  _format_phi_messages rt [message "user" c] =
  Ok ("<|user|>" +:+ c +:+ "<|end|><|assistant|>").
Proof. reflexivity. Qed.

(** Whatever the command line, the demonstration runs exactly one example,
    a single user message, so that the formatter cannot fail on it: the one
    request of the stream carries the prompt <|user|>c<|end|><|assistant|>,
    without a system block, for the default model. *)
Theorem build_examples_prompt (rt : Runtime) (args : Args) :
  exists (title c : string),
    build_examples args =
      [ {| ex_title := title; ex_messages := [message "user" c] |} ]
    /\ _format_phi_messages rt [message "user" c] =
       Ok ("<|user|>" +:+ c +:+ "<|end|><|assistant|>")
    /\ forall self w,
        sent (chat_stream rt self [message "user" c] default_model w).2 =
        sent w ++ [completions_request self
                     ("<|user|>" +:+ c +:+ "<|end|><|assistant|>")
                     default_model].
Proof.
  assert (H : forall title c,
    build_examples args =
      [ {| ex_title := title; ex_messages := [message "user" c] |} ] ->
    exists (title c : string),
      build_examples args =
        [ {| ex_title := title; ex_messages := [message "user" c] |} ]
      /\ _format_phi_messages rt [message "user" c] =
         Ok ("<|user|>" +:+ c +:+ "<|end|><|assistant|>")
      /\ forall self w,
          sent (chat_stream rt self [message "user" c] default_model w).2 =
          sent w ++ [completions_request self
                       ("<|user|>" +:+ c +:+ "<|end|><|assistant|>")
                       default_model]).
  { intros title c Hb. exists title, c. split; [exact Hb|].
    split; [apply format_single_user|]. intros self w.
    apply chat_stream_sent, format_single_user. }
  unfold build_examples in *.
  destruct (args_title args) as [title|];
    [destruct (args_content args) as [content|]|].
  - destruct (negb (String.eqb title "") && negb (Nat.eqb (length content) 0)).
    + now apply (H title (join_space content)).
    + now apply (H "AI Explanation" "Explain what AI is in two sentences.").
  - now apply (H "AI Explanation" "Explain what AI is in two sentences.").
  - now apply (H "AI Explanation" "Explain what AI is in two sentences.").
Qed.

(** The fixed example is not out of reach: it is what the demonstration
    runs whenever the title or the content is missing or empty, so a content
    given without a title is dropped; only with both is the example made of
    the title and of the words of the content joined by single spaces. *)
Theorem build_examples_fallback (args : Args) :
  (args_title args = None \/ args_title args = Some ""
   \/ args_content args = None \/ args_content args = Some [] ->
   build_examples args = [fallback_example])
  /\ (forall title word words,
        args_title args = Some title -> title <> "" ->
        args_content args = Some (word :: words) ->
        build_examples args =
          [ {| ex_title := title;
               ex_messages :=
                 [message "user" (join_space (word :: words))] |} ]).
Proof.
  unfold build_examples. split.
  - intros [H | [H | [H | H]]]; rewrite H; try reflexivity.
    + now destruct (args_content args).
    + now destruct (args_title args).
    + destruct (args_title args) as [title|]; [|reflexivity].
      simpl. now rewrite andb_false_r.
  - intros title word words Ht Hne Hc. rewrite Ht, Hc.
    destruct (String.eqb_spec title ""); [contradiction|]. reflexivity.
Qed.

Lemma writes_succeed_app (con : Console) (out xs ys : list string) :
  writes_succeed con out (xs ++ ys) <->
  writes_succeed con out xs /\ writes_succeed con (out ++ xs) ys.
Proof.
  revert out. induction xs as [|x xs IH]; intros out; simpl.
  - rewrite app_nil_r. tauto.
  - rewrite IH, <- app_assoc. simpl. tauto.
Qed.

Lemma print_tokens_str_cases (rt : Runtime) (con : Console)
    (events : list StreamEvent) :
  Forall (fun ev => is_str ev.1) events ->
  forall out acc,
    writes_succeed con out (map (fun ev => printed rt ev.1) events) ->
    print_tokens rt con events out acc =
    (out ++ map (fun ev => printed rt ev.1) events,
     Ok {| total_time :=
             match last events with
             | Some ev => PFloat ev.2
             | None => total_time acc
             end;
           total_response := total_response acc +:+ concat_tokens events |}).
Proof.
  induction 1 as [|[token t] events [s Hs] _ IH]; intros out acc Hw.
  - simpl. rewrite app_nil_r, append_empty_r. now destruct acc.
  - simpl in Hs. subst token. simpl in Hw. destruct Hw as [Hw1 Hw2].
    simpl print_tokens. rewrite Hw1. rewrite (IH _ _ Hw2).
    simpl map. rewrite <- app_assoc. simpl app. f_equal. f_equal.
    simpl total_time. simpl total_response. simpl concat_tokens.
    rewrite append_assoc, last_cons. unfold StreamEvent in *.
    destruct (last events); reflexivity.
Qed.

(** When every token of the stream is a [str] and every write to the
    standard output succeeds, the printing loop writes each token in order,
    a newline after a token that is a single space and nothing after any
    other, and ends with [total_response] the tokens put together and
    [total_time] the time of the last event (what it was before, when there
    is no event). *)
Theorem print_tokens_str (rt : Runtime) (con : Console)
    (events : list StreamEvent) (out : list string) (acc : Totals) :
  Forall (fun ev => is_str ev.1) events ->
  writes_succeed con out (map (fun ev => printed rt ev.1) events) ->
  print_tokens rt con events out acc =
  (out ++ map (fun ev => printed rt ev.1) events,
   Ok {| total_time :=
           match last events with
           | Some ev => PFloat ev.2
           | None => total_time acc
           end;
         total_response := total_response acc +:+ concat_tokens events |})
  /\ printed rt (PStr " ") = " " +:+ newline
  /\ (forall s, s <> " " -> printed rt (PStr s) = s).
Proof.
  intros H Hw. split; [now apply print_tokens_str_cases|].
  split; [reflexivity|].
  intros s Hs. unfold printed. simpl.
  destruct (String.eqb_spec s " "); [contradiction|]. apply append_empty_r.
Qed.

Lemma print_tokens_str_witness :
  Forall (fun ev : StreamEvent => is_str ev.1)
    [(PStr "Hello", 0.5%float); (PStr " ", 1%float); (PStr "world", 1.5%float)]
  /\ writes_succeed ascii_console []
       (map (fun ev : StreamEvent => printed offline ev.1)
          [(PStr "Hello", 0.5%float); (PStr " ", 1%float);
           (PStr "world", 1.5%float)])
  /\ print_tokens offline ascii_console
       [(PStr "Hello", 0.5%float); (PStr " ", 1%float); (PStr "world", 1.5%float)]
       [] initial_totals =
     (["Hello"; " " +:+ newline; "world"],
      Ok {| total_time := PFloat 1.5%float; total_response := "Hello world" |}).
Proof.
  assert (H : Forall (fun ev : StreamEvent => is_str ev.1)
                [(PStr "Hello", 0.5%float); (PStr " ", 1%float);
                 (PStr "world", 1.5%float)])
    by (repeat constructor; eexists; reflexivity).
  assert (Hw : writes_succeed ascii_console []
                 (map (fun ev : StreamEvent => printed offline ev.1)
                    [(PStr "Hello", 0.5%float); (PStr " ", 1%float);
                     (PStr "world", 1.5%float)]))
    by (repeat split).
  split; [exact H|]. split; [exact Hw|].
  refine (eq_trans (proj1 (print_tokens_str offline ascii_console _ []
                             initial_totals H Hw)) _).
  reflexivity.
Defined.

(** A token that is not a [str] ends the printing loop with TypeError,
    when the writes up to it succeed: the token itself has been printed,
    [total_response] is lost with the error, and the events after it are
    not printed. *)
Theorem print_tokens_not_str (rt : Runtime) (con : Console)
    (before after : list StreamEvent) (token : pyval) (t : float)
    (out : list string) (acc : Totals) :
  Forall (fun ev => is_str ev.1) before ->
  ~ is_str token ->
  writes_succeed con out
    (map (fun ev => printed rt ev.1) before ++ [printed rt token]) ->
  print_tokens rt con (before ++ (token, t) :: after) out acc =
  (out ++ map (fun ev => printed rt ev.1) before ++ [printed rt token],
   Raise TypeError).
Proof.
  intros Hb Ht. revert out acc.
  induction Hb as [|[tok t'] before [s Hs] _ IH]; intros out acc Hw.
  - simpl in *. destruct Hw as [Hw _]. rewrite Hw.
    destruct token; try reflexivity. destruct Ht. now eexists.
  - simpl in Hs. subst tok. simpl in Hw. destruct Hw as [Hw1 Hw2].
    simpl app. simpl print_tokens. rewrite Hw1, (IH _ _ Hw2).
    simpl map. now rewrite <- app_assoc.
Qed.

Lemma print_tokens_not_str_witness :
  Forall (fun ev : StreamEvent => is_str ev.1) [(PStr "a", 0.5%float)]
  /\ ~ is_str (PInt 5)
  /\ writes_succeed utf8_console []
       (map (fun ev : StreamEvent => printed offline ev.1)
          [(PStr "a", 0.5%float)] ++ [printed offline (PInt 5)])
  /\ print_tokens offline utf8_console
       ([(PStr "a", 0.5%float)] ++ (PInt 5, 1%float) :: [(PStr "b", 1.5%float)])
       [] initial_totals =
     (["a"; "..."], Raise TypeError).
Proof.
  assert (H1 : Forall (fun ev : StreamEvent => is_str ev.1)
                 [(PStr "a", 0.5%float)])
    by (repeat constructor; eexists; reflexivity).
  assert (H2 : ~ is_str (PInt 5)) by (intros [s Hs]; discriminate).
  assert (H3 : writes_succeed utf8_console []
                 (map (fun ev : StreamEvent => printed offline ev.1)
                    [(PStr "a", 0.5%float)] ++ [printed offline (PInt 5)]))
    by (repeat split).
  split; [exact H1|]. split; [exact H2|]. split; [exact H3|].
  refine (eq_trans (print_tokens_not_str offline utf8_console _
                      [(PStr "b", 1.5%float)] (PInt 5) 1%float []
                      initial_totals H1 H2 H3) _).
  reflexivity.
Defined.

(** A write that fails ends the printing loop with the exception of the
    write, UnicodeEncodeError for a token the standard output cannot encode:
    what was written before stays, the token is not written, the totals are
    lost with the error and the events after it are not printed. *)
Theorem print_tokens_write_fails (rt : Runtime) (con : Console)
    (before after : list StreamEvent) (token : pyval) (t : float) (e : exn)
    (out : list string) (acc : Totals) :
  Forall (fun ev => is_str ev.1) before ->
  writes_succeed con out (map (fun ev => printed rt ev.1) before) ->
  stdout_write con (out ++ map (fun ev => printed rt ev.1) before)
    (printed rt token) = Raise e ->
  print_tokens rt con (before ++ (token, t) :: after) out acc =
  (out ++ map (fun ev => printed rt ev.1) before, Raise e).
Proof.
  intros Hb. revert out acc.
  induction Hb as [|[tok t'] before [s Hs] _ IH]; intros out acc Hw He.
  - simpl in *. rewrite app_nil_r in *. now rewrite He.
  - simpl in Hs. subst tok. simpl in Hw. destruct Hw as [Hw1 Hw2].
    simpl app. simpl print_tokens. rewrite Hw1. simpl map in *.
    replace (out ++ printed rt (PStr s)
               :: map (fun ev => printed rt ev.1) before)
      with ((out ++ [printed rt (PStr s)])
              ++ map (fun ev => printed rt ev.1) before) in *
      by now rewrite <- app_assoc.
    now apply IH.
Qed.

Lemma print_tokens_write_fails_witness :
  Forall (fun ev : StreamEvent => is_str ev.1) [(PStr "caf", 0.5%float)]
  /\ writes_succeed ascii_console []
       (map (fun ev : StreamEvent => printed offline ev.1)
          [(PStr "caf", 0.5%float)])
  /\ stdout_write ascii_console
       ([] ++ map (fun ev : StreamEvent => printed offline ev.1)
                [(PStr "caf", 0.5%float)])
       (printed offline (PStr e_acute)) = Raise UnicodeEncodeError
  /\ print_tokens offline ascii_console
       ([(PStr "caf", 0.5%float)] ++ (PStr e_acute, 1%float)
          :: [(PStr "s", 1.5%float)])
       [] initial_totals =
     (["caf"], Raise UnicodeEncodeError).
Proof.
  assert (H1 : Forall (fun ev : StreamEvent => is_str ev.1)
                 [(PStr "caf", 0.5%float)])
    by (repeat constructor; eexists; reflexivity).
  assert (H2 : writes_succeed ascii_console []
                 (map (fun ev : StreamEvent => printed offline ev.1)
                    [(PStr "caf", 0.5%float)]))
    by (repeat split).
  split; [exact H1|]. split; [exact H2|]. split; [reflexivity|].
  refine (eq_trans (print_tokens_write_fails offline ascii_console _
                      [(PStr "s", 1.5%float)] (PStr e_acute) 1%float
                      UnicodeEncodeError [] initial_totals H1 H2 eq_refl) _).
  reflexivity.
Defined.

Lemma events_of_texts (rt : Runtime) (events : list StreamEvent)
    (l : list string) :
  map fst events = map PStr l ->
  Forall (fun ev => is_str ev.1) events
  /\ concat_tokens events = fold_right String.append "" l
  /\ map (fun ev => printed rt ev.1) events =
     map (fun s => printed rt (PStr s)) l.
Proof.
  revert l. induction events as [|[token t] events IH]; intros [|s l] H;
    try discriminate.
  - repeat split. constructor.
  - simpl in H. inversion H as [[Ht Hl]]. subst token.
    destruct (IH l Hl) as (I1 & I2 & I3).
    split; [constructor; [now exists s | exact I1]|].
    split; simpl; [now rewrite I2 | now rewrite I3].
Qed.

Lemma concat_nonempty (ts : list string) :
  fold_right String.append "" (List.filter nonempty ts) =
  fold_right String.append "" ts.
Proof.
  induction ts as [|t ts IH]; [reflexivity|]. simpl. unfold nonempty at 1.
  destruct (String.eqb_spec t "") as [->|]; simpl; now rewrite IH.
Qed.

(** End to end with the printing loop: when the server streams the chunk
    lines of the texts [ts] and the sentinel, and the standard output takes
    the texts, the loop of the demonstration over [chat_stream] prints the
    texts that are not empty, in order, and ends with [total_response] the
    texts put together. *)
Theorem demonstration_total_response (rt : Runtime) (con : Console)
    (self : LLMClient) (messages : list dict) (model prompt : string)
    (response : Response) (ts : list string) (out : list string) (w : World) :
  _format_phi_messages rt messages = Ok prompt ->
  serve rt (completions_request self prompt model) = Ok response ->
  status_code response = 200 ->
  iter_lines response = chunk_lines ts ->
  Forall (decodes_chunk rt) ts ->
  writes_succeed con out
    (map (fun s => printed rt (PStr s)) (List.filter nonempty ts)) ->
  exists acc,
    print_tokens rt con (chat_stream rt self messages model w).1.1 out
      initial_totals =
      (out ++ map (fun s => printed rt (PStr s)) (List.filter nonempty ts),
       Ok acc)
    /\ total_response acc = fold_right String.append "" ts.
Proof.
  intros Hf Hs Hc Hl Hts Hw.
  assert (Hev : map fst (chat_stream rt self messages model w).1.1 =
                map PStr (List.filter nonempty ts)).
  { rewrite (chat_stream_formatted rt self messages model prompt w Hf).
    cbn zeta. rewrite Hs, Hc, Hl. simpl negb. cbv iota.
    apply (for_each_chunk_lines rt _ ts Hts). }
  destruct (events_of_texts rt _ _ Hev) as (I1 & I2 & I3).
  eexists. split.
  - rewrite (print_tokens_str_cases rt con _ I1); rewrite I3;
      [reflexivity | exact Hw].
  - simpl. now rewrite I2, concat_nonempty.
Qed.

Lemma demonstration_total_response_witness :
  _format_phi_messages hello_runtime [message "user" "Say hello"] =
    Ok "<|user|>Say hello<|end|><|assistant|>"
  /\ Forall (decodes_chunk hello_runtime) ["Hello"; " "; "world"]
  /\ writes_succeed ascii_console []
       (map (fun s => printed hello_runtime (PStr s))
          (List.filter nonempty ["Hello"; " "; "world"]))
  /\ print_tokens hello_runtime ascii_console
       (chat_stream hello_runtime (__init__ default_api_base)
          [message "user" "Say hello"] default_model initial_world).1.1
       [] initial_totals =
     (["Hello"; " " +:+ newline; "world"],
      Ok {| total_time := PFloat 1.5%float; total_response := "Hello world" |})
  /\ exists acc,
      print_tokens hello_runtime ascii_console
        (chat_stream hello_runtime (__init__ default_api_base)
           [message "user" "Say hello"] default_model initial_world).1.1
        [] initial_totals =
        ([] ++ map (fun s => printed hello_runtime (PStr s))
                 (List.filter nonempty ["Hello"; " "; "world"]),
         Ok acc)
      /\ total_response acc =
         fold_right String.append "" ["Hello"; " "; "world"].
Proof.
  assert (H : Forall (decodes_chunk hello_runtime) ["Hello"; " "; "world"])
    by (repeat constructor).
  assert (Hw : writes_succeed ascii_console []
                 (map (fun s => printed hello_runtime (PStr s))
                    (List.filter nonempty ["Hello"; " "; "world"])))
    by (repeat split).
  split; [reflexivity|]. split; [exact H|]. split; [exact Hw|].
  split; [reflexivity|].
  exact (demonstration_total_response hello_runtime ascii_console
           (__init__ default_api_base)
           [message "user" "Say hello"] default_model
           "<|user|>Say hello<|end|><|assistant|>"
           hello_response ["Hello"; " "; "world"] [] initial_world
           eq_refl eq_refl eq_refl eq_refl H Hw).
Defined.
